(** * harsh: the log storage layer and the satisfaction engine

    A shallow embedding of [internal/storage/log.go] (the log parser, the
    log writer's line format and [Entries.FirstRecords]) and of the
    packages [graph] and [ui] as the specification describes them (their
    code is not among the sources; the tables of their tests are, and the
    definitions are evaluated on them), followed by the properties proved
    about them.

    Conventions.
    - A [civil.Date] is identified with its day number (a [Z]): on valid
      proleptic Gregorian dates [AddDays n] is [+ n], [Before] is [<],
      [After] is [>].  [DateOf] turns a year/month/day literal into its day
      number, so that the dates of the test tables can be written as they
      are in the tests.
    - Go strings are byte strings: [string]; [strings.Split], [Join],
      [TrimSpace], [HasPrefix], [HasSuffix] and [Contains] are written out
      on them.
    - A Go [map] is a [gmap]; a slice indexed by an [int] is a [list]
      looked up with a [Z], an index out of range being a run-time panic.
    - [civil.ParseDate], [civil.Date.String] and [strconv.ParseFloat]
      belong to libraries outside the repository: the functions that call
      them take them as arguments ([GoLib]); [refLib] gives reference
      implementations on which the examples are evaluated. *)

From Stdlib Require Import ZArith QArith Lia Ascii.
From stdpp Require Import base option list gmap strings fin_maps sorting.

Local Open Scope Z_scope.

(** ** Calendar dates *)

Module Civil.

Abbreviation Date := Z.

(** Day number of a year/month/day triple (days since 1970-01-01),
    total on all triples as [time.Date] normalisation is. *)
Definition DateOf (y m d : Z) : Date :=
  let y' := if m <=? 2 then y - 1 else y in
  let era := y' / 400 in
  let yoe := y' - era * 400 in
  let mp := (m + 9) mod 12 in
  let doy := (153 * mp + 2) / 5 + d - 1 in
  let doe := yoe * 365 + yoe / 4 - yoe / 100 + doy in
  era * 146097 + doe - 719468.

(** The zero value [civil.Date{}] (year 0, month 0, day 0): it orders
    before every date a log can hold. *)
Definition zero : Date := DateOf 0 0 0.

Definition AddDays (d : Date) (n : Z) : Date := d + n.
Definition Before (d1 d2 : Date) : bool := d1 <? d2.
Definition After (d1 d2 : Date) : bool := d2 <? d1.
Definition DaysSince (d s : Date) : Z := d - s.

(** The days [from, from+1, ..., to], the range of
    [for d := from; !d.After(to); d = d.AddDays(1)]. *)
Definition daysUp (from to : Date) : list Date :=
  seqZ from (to - from + 1).

(** The days [to, to-1, ..., from], the range of
    [for dt := to; !dt.Before(from); dt = dt.AddDays(-1)]. *)
Definition daysDown (from to : Date) : list Date :=
  reverse (daysUp from to).

End Civil.

(** ** Byte strings: the [strings] functions the storage layer calls *)

Module Strings.

(** The white space [strings.TrimSpace] drops is that of
    [unicode.IsSpace]: the six of ASCII, and in UTF-8 the runes U+0085,
    U+00A0 (two bytes), U+1680, U+2000..U+200A, U+2028, U+2029, U+202F,
    U+205F and U+3000 (three bytes). *)
Definition isSpace1 (c : ascii) : bool :=
  let n := nat_of_ascii c in
  ((9 <=? n) && (n <=? 13))%nat || (n =? 32)%nat.

Definition isSpace2 (c1 c2 : ascii) : bool :=
  let n1 := nat_of_ascii c1 in
  let n2 := nat_of_ascii c2 in
  ((n1 =? 194) && ((n2 =? 133) || (n2 =? 160)))%nat.

Definition isSpace3 (c1 c2 c3 : ascii) : bool :=
  let n1 := nat_of_ascii c1 in
  let n2 := nat_of_ascii c2 in
  let n3 := nat_of_ascii c3 in
  (((n1 =? 225) && (n2 =? 154) && (n3 =? 128))
   || ((n1 =? 226) && (n2 =? 128)
       && (((128 <=? n3) && (n3 <=? 138)) || (n3 =? 168) || (n3 =? 169) || (n3 =? 175)))
   || ((n1 =? 226) && (n2 =? 129) && (n3 =? 159))
   || ((n1 =? 227) && (n2 =? 128) && (n3 =? 128)))%nat.

Fixpoint TrimLeft (s : string) : string :=
  match s with
  | String c1 s1 =>
      if isSpace1 c1 then TrimLeft s1
      else match s1 with
           | String c2 s2 =>
               if isSpace2 c1 c2 then TrimLeft s2
               else match s2 with
                    | String c3 s3 => if isSpace3 c1 c2 c3 then TrimLeft s3 else s
                    | EmptyString => s
                    end
           | EmptyString => s
           end
  | EmptyString => EmptyString
  end.

Fixpoint reverseOnto (s acc : string) : string :=
  match s with
  | String c s' => reverseOnto s' (String c acc)
  | EmptyString => acc
  end.

(** [TrimLeft] on a string read from its end. *)
Fixpoint trimReversed (s : string) : string :=
  match s with
  | String c1 s1 =>
      if isSpace1 c1 then trimReversed s1
      else match s1 with
           | String c2 s2 =>
               if isSpace2 c2 c1 then trimReversed s2
               else match s2 with
                    | String c3 s3 => if isSpace3 c3 c2 c1 then trimReversed s3 else s
                    | EmptyString => s
                    end
           | EmptyString => s
           end
  | EmptyString => EmptyString
  end.

Definition TrimRight (s : string) : string :=
  reverseOnto (trimReversed (reverseOnto s EmptyString)) EmptyString.

(** [strings.TrimSpace]. *)
Definition TrimSpace (s : string) : string := TrimRight (TrimLeft s).

(** [strings.HasPrefix(s, prefix)]. *)
Fixpoint HasPrefix (s p : string) {struct p} : bool :=
  match p with
  | EmptyString => true
  | String a p' =>
      match s with
      | EmptyString => false
      | String b s' => bool_decide (a = b) && HasPrefix s' p'
      end
  end.

(** [splitFrom sep s skip cur]: scan [s] from the left; [cur] is the
    field read so far, [skip] the bytes of a separator still to drop. *)
Fixpoint splitFrom (sep s : string) (skip : nat) (cur : string) : list string :=
  match s with
  | EmptyString => [cur]
  | String c s' =>
      match skip with
      | S k => splitFrom sep s' k cur
      | O =>
          if HasPrefix s sep
          then cur :: splitFrom sep s' (String.length sep - 1) EmptyString
          else splitFrom sep s' O (cur +:+ String c EmptyString)
      end
  end.

(** [strings.Split(s, sep)] for a non-empty [sep]: the fields between
    the leftmost non-overlapping occurrences of [sep]. *)
Definition Split (s sep : string) : list string :=
  splitFrom sep s O EmptyString.

(** [strings.Join(fields, sep)]. *)
Fixpoint Join (fields : list string) (sep : string) : string :=
  match fields with
  | [] => EmptyString
  | [f] => f
  | f :: rest => f +:+ sep +:+ Join rest sep
  end.

(** [strings.HasSuffix(s, suffix)]. *)
Fixpoint HasSuffix (s suffix : string) : bool :=
  bool_decide (s = suffix) ||
  match s with
  | String _ s' => HasSuffix s' suffix
  | EmptyString => false
  end.

(** [strings.Contains(s, sub)]. *)
Fixpoint Contains (s sub : string) : bool :=
  HasPrefix s sub ||
  match s with
  | String _ s' => Contains s' sub
  | EmptyString => false
  end.

End Strings.

(** ** The storage layer: [internal/storage/log.go] *)

Module Storage.
Import Strings.

(** A run of Go code either finishes or panics (an index out of range). *)
Inductive Run (A : Type) : Type :=
| Done (a : A)
| Panic.
Arguments Done {A} a.
Arguments Panic {A}.

#[global] Instance run_ret : MRet Run := fun A a => Done a.
#[global] Instance run_bind : MBind Run := fun A B k r =>
  match r with
  | Done a => k a
  | Panic => Panic
  end.

#[global] Instance run_fmap : FMap Run := fun A B f r =>
  match r with
  | Done a => Done (f a)
  | Panic => Panic
  end.

(** [s[i]] on a slice. *)
Definition index {A} (s : list A) (i : Z) : Run A :=
  if (0 <=? i) && (i <? Z.of_nat (length s))
  then match s !! Z.to_nat i with
       | Some x => Done x
       | None => Panic
       end
  else Panic.

(** [s[i] = x] on a slice. *)
Definition assign {A} (s : list A) (i : Z) (x : A) : Run (list A) :=
  if (0 <=? i) && (i <? Z.of_nat (length s))
  then Done (<[Z.to_nat i := x]> s)
  else Panic.

Record Outcome : Type := {
  Result : string;
  Amount : Q;
  Comment : string
}.

(** [DailyHabit{Day, Habit}], the key of the entries. *)
Abbreviation DailyHabit := (Civil.Date * string)%type.

Abbreviation Entries := (gmap DailyHabit Outcome).
Abbreviation Header := (gmap string Z).

Definition HeaderDate : string := "Date".
Definition HeaderAmount : string := "Amount".
Definition HeaderComment : string := "Comment".
Definition HeaderHabit : string := "Habit".
Definition HeaderStatus : string := "Status".

Definition DefaultHeader : Header :=
  <[HeaderDate := 0]> (<[HeaderHabit := 1]> (<[HeaderStatus := 2]>
    (<[HeaderComment := 3]> (<[HeaderAmount := 4]> ∅)))).

Record Log : Type := {
  LogEntries : Entries;
  LogHeader : Header
}.

(** The library functions the storage layer calls.  [ParseDate] is
    [None] where [civil.ParseDate] returns an error; [ParseFloat] gives
    the value [strconv.ParseFloat] returns and whether its error is
    non-nil. *)
Record GoLib : Type := {
  ParseDate : string -> option Civil.Date;
  DateString : Civil.Date -> string;
  ParseFloat : string -> Q * bool
}.

(** What [parseLogLine] prints. *)
Inductive Warning : Type :=
| WarnFieldCount (expected found lineCount : Z)
| WarnInvalidDate (lineCount : Z) (field : string)
| WarnEmptyHabit (lineCount : Z)
| WarnInvalidResult (field : string) (lineCount : Z)
| WarnInvalidAmount (field : string) (lineCount : Z) (used : Q).

(** [header[key]]: the zero value where the key is absent. *)
Definition at_key (header : Header) (key : string) : Z :=
  default 0 (header !! key).

Definition isHeaderName (word : string) : bool :=
  bool_decide (word ∈ [HeaderDate; HeaderHabit; HeaderStatus; HeaderComment; HeaderAmount]).

Fixpoint parseHeaderFrom (words : list string) (i : Z) (out : Header) : option Header :=
  match words with
  | [] => Some out
  | word :: rest =>
      if isHeaderName word
      then parseHeaderFrom rest (i + 1) (<[word := i]> out)
      else None
  end.

Definition ParseHeader (line : string) : option Header :=
  parseHeaderFrom (Split line " : ") 0 ∅.

Definition isResultCode (s : string) : bool :=
  bool_decide (s = "y") || bool_decide (s = "n") || bool_decide (s = "s").

(** The date block of [parseLogLine]: the date read, or the warning of
    its early return. *)
Definition readDate (lib : GoLib) (header : Header) (result : list string)
    (lineCount : Z) : Run (Civil.Date + Warning) :=
  match header !! HeaderDate with
  | Some i =>
      if i <? Z.of_nat (length result)
      then f ← index result i;
           Done (match ParseDate lib f with
                 | Some cd => inl cd
                 | None => inr (WarnInvalidDate lineCount f)
                 end)
      else Done (inl Civil.zero)
  | None => Done (inl Civil.zero)
  end.

(** The condition of the habit block:
    [!ok || i >= len(result) || strings.TrimSpace(result[i]) == ""]. *)
Definition habitMissing (header : Header) (result : list string) : Run bool :=
  match header !! HeaderHabit with
  | None => Done true
  | Some i =>
      if Z.of_nat (length result) <=? i then Done true
      else f ← index result i;
           Done (bool_decide (TrimSpace f = ""))
  end.

(** The status block: the slice with its status trimmed, or the warning
    of the early return. *)
Definition readStatus (header : Header) (result : list string) (lineCount : Z)
    : Run (list string + Warning) :=
  match header !! HeaderStatus with
  | Some i =>
      if i <? Z.of_nat (length result)
      then f ← index result i;
           result' ← assign result i (TrimSpace f);
           Done (if isResultCode (TrimSpace f) then inl result'
                 else inr (WarnInvalidResult (TrimSpace f) lineCount))
      else Done (inl result)
  | None => Done (inl result)
  end.

(** The amount block: the amount and what it prints. *)
Definition readAmount (lib : GoLib) (header : Header) (result : list string)
    (lineCount : Z) : Run (Q * list Warning) :=
  match header !! HeaderAmount with
  | Some i =>
      if i <? Z.of_nat (length result)
      then f ← index result i;
           Done (if bool_decide (f = "") then (0%Q, [])
                 else let '(v, err) := ParseFloat lib f in
                      (v, if (err : bool)
                          then [WarnInvalidAmount f lineCount v]
                          else []))
      else Done (0%Q, [])
  | None => Done (0%Q, [])
  end.

Definition readComment (header : Header) (result : list string) : Run string :=
  match header !! HeaderComment with
  | Some i =>
      if i <? Z.of_nat (length result) then index result i else Done EmptyString
  | None => Done EmptyString
  end.

Definition parseLogLine (lib : GoLib) (line : string) (lineCount : Z)
    (header : Header) (entries : Entries) : Run (Entries * list Warning) :=
  match line with
  | EmptyString => Done (entries, [])
  | String c _ =>
    if bool_decide (c = "#"%char) then Done (entries, []) else
    let result := Split line " : " in
    let n := Z.of_nat (length result) in
    let w0 :=
      if bool_decide (n = Z.of_nat (size header)) then []
      else [WarnFieldCount (Z.of_nat (size header)) n lineCount] in
    date ← readDate lib header result lineCount;
    match date with
    | inr w => Done (entries, w0 ++ [w])
    | inl cd =>
      noHabit ← habitMissing header result;
      if (noHabit : bool) then Done (entries, w0 ++ [WarnEmptyHabit lineCount]) else
      status ← readStatus header result lineCount;
      match status with
      | inr w => Done (entries, w0 ++ [w])
      | inl result =>
        amount ← readAmount lib header result lineCount;
        comment ← readComment header result;
        habit ← index result (at_key header HeaderHabit);
        res ← index result (at_key header HeaderStatus);
        Done (<[(cd, habit) :=
                  {| Result := res; Amount := amount.1; Comment := comment |}]> entries,
              w0 ++ amount.2)
      end
    end
  end.

(** The loop of [LoadLog]: [lineCount++] and [parseLogLine] on each line
    the scanner yields. *)
Fixpoint parseLines (lib : GoLib) (lines : list string) (lineCount : Z)
    (header : Header) (entries : Entries) : Run (Entries * list Warning) :=
  match lines with
  | [] => Done (entries, [])
  | line :: rest =>
      r1 ← parseLogLine lib line (lineCount + 1) header entries;
      r2 ← parseLines lib rest (lineCount + 1) header r1.1;
      Done (r2.1, r1.2 ++ r2.2)
  end.

(** [LoadLog] once the file is open, on the lines the scanner yields:
    the first line is the header, or a record under [DefaultHeader]. *)
Definition LoadLog (lib : GoLib) (lines : list string) : Run (Log * list Warning) :=
  let first := hd EmptyString lines in
  match ParseHeader first with
  | Some header =>
      r ← parseLines lib (tail lines) 0 header ∅;
      Done ({| LogEntries := r.1; LogHeader := header |}, r.2)
  | None =>
      r1 ← parseLogLine lib first 1 DefaultHeader ∅;
      r2 ← parseLines lib (tail lines) 1 DefaultHeader r1.1;
      Done ({| LogEntries := r2.1; LogHeader := DefaultHeader |}, r1.2 ++ r2.2)
  end.

(** The [switch] of [WriteHabitLog]: the field written under a column. *)
Definition fieldOf (lib : GoLib) (d : Civil.Date) (habit result comment amount : string)
    (column : string) : string :=
  if bool_decide (column = HeaderAmount) then amount
  else if bool_decide (column = HeaderComment) then comment
  else if bool_decide (column = HeaderDate) then DateString lib d
  else if bool_decide (column = HeaderHabit) then habit
  else if bool_decide (column = HeaderStatus) then result
  else EmptyString.

(** The [fields] slice [WriteHabitLog] fills, one [fields[i] = field]
    for each column of the header. *)
Definition logFields (lib : GoLib) (d : Civil.Date) (habit result comment amount : string)
    (header : Header) : Run (list string) :=
  map_fold (fun column i acc =>
              fields ← acc;
              assign fields i (fieldOf lib d habit result comment amount column))
           (Done (replicate (size header) EmptyString)) header.

(** The line [WriteHabitLog] appends, without its final newline (the
    scanner of [LoadLog] drops it). *)
Definition logEntry (lib : GoLib) (d : Civil.Date) (habit result comment amount : string)
    (header : Header) : Run string :=
  fields ← logFields lib d habit result comment amount header;
  Done (Join fields " : ").

(** Modelled from the spec: the declaration of [storage.Habit] is not
    among the sources; its fields are those the tests build habits from
    and [FirstRecords] writes. *)
Record Habit : Type := {
  Name : string;
  Heading : string;
  Frequency : string;
  Target : Z;
  Interval : Z;
  FirstRecord : Civil.Date
}.

Definition setFirstRecord (h : Habit) (dt : Civil.Date) : Habit :=
  {| Name := Name h; Heading := Heading h; Frequency := Frequency h;
     Target := Target h; Interval := Interval h; FirstRecord := dt |}.

(** The body of the inner loop of [FirstRecords], on one habit. *)
Definition firstRecordStep (e : Entries) (dt : Civil.Date) (habit : Habit) : Habit :=
  match e !! (dt, Name habit) with
  | Some _ => setFirstRecord habit dt
  | None => habit
  end.

(** One turn of the outer loop of [FirstRecords]: the inner loop over
    the habits at the day [dt]. *)
Definition firstRecordsAt (e : Entries) (dt : Civil.Date) (habits : list Habit) : list Habit :=
  firstRecordStep e dt <$> habits.

(** [Entries.FirstRecords]: the habits after the call (they are updated
    in place through their pointers). *)
Definition FirstRecords (e : Entries) (from to : Civil.Date) (habits : list Habit) : list Habit :=
  foldl (fun hs dt => firstRecordsAt e dt hs) habits (Civil.daysDown from to).

End Storage.

(** ** Reference implementations of the library functions

    [civil.Date.String] is [%04d-%02d-%02d]; [civil.ParseDate] is
    [time.Parse] on the layout [2006-01-02]: four digits, two digits, two
    digits, a month in 1..12 and a day of that month; [strconv.ParseFloat]
    is given on plain decimal literals (an optional sign, digits, an
    optional fraction), its value exact; every other string is a syntax
    error with value 0. *)

Module RefLib.

Definition isDigit (c : ascii) : bool :=
  let n := nat_of_ascii c in ((48 <=? n) && (n <=? 57))%nat.

Definition digitVal (c : ascii) : Z := Z.of_nat (nat_of_ascii c) - 48.

Definition digitChar (n : Z) : ascii := ascii_of_nat (48 + Z.to_nat n).

Fixpoint padded (width : nat) (n : Z) (acc : string) : string :=
  match width with
  | O => acc
  | S w => padded w (n / 10) (String (digitChar (n mod 10)) acc)
  end.

Definition isLeap (y : Z) : bool :=
  ((y mod 4 =? 0) && negb (y mod 100 =? 0)) || (y mod 400 =? 0).

Definition daysIn (y m : Z) : Z :=
  if m =? 2 then (if isLeap y then 29 else 28)
  else if (m =? 4) || (m =? 6) || (m =? 9) || (m =? 11) then 30
  else 31.

(** Year, month and day of a day number. *)
Definition civilOf (days : Civil.Date) : Z * Z * Z :=
  let z := days + 719468 in
  let era := z / 146097 in
  let doe := z - era * 146097 in
  let yoe := (doe - doe / 1460 + doe / 36524 - doe / 146096) / 365 in
  let doy := doe - (365 * yoe + yoe / 4 - yoe / 100) in
  let mp := (5 * doy + 2) / 153 in
  let d := doy - (153 * mp + 2) / 5 + 1 in
  let m := if mp <? 10 then mp + 3 else mp - 9 in
  let y := yoe + era * 400 + (if m <=? 2 then 1 else 0) in
  (y, m, d).

Definition DateString (d : Civil.Date) : string :=
  let '(y, m, dd) := civilOf d in
  padded 4 y ("-" +:+ padded 2 m ("-" +:+ padded 2 dd EmptyString)).

Definition ParseDate (s : string) : option Civil.Date :=
  match s with
  | String y1 (String y2 (String y3 (String y4 (String "-"
      (String m1 (String m2 (String "-" (String d1 (String d2 EmptyString))))))))) =>
      if forallb isDigit [y1; y2; y3; y4; m1; m2; d1; d2]
      then
        let y := 1000 * digitVal y1 + 100 * digitVal y2 + 10 * digitVal y3 + digitVal y4 in
        let m := 10 * digitVal m1 + digitVal m2 in
        let d := 10 * digitVal d1 + digitVal d2 in
        if (1 <=? m) && (m <=? 12) && (1 <=? d) && (d <=? daysIn y m)
        then Some (Civil.DateOf y m d)
        else None
      else None
  | _ => None
  end.

(** Digits read so far as a numerator and a power of ten. *)
Fixpoint decimalFrom (s : string) (inFrac seen : bool) (num : Z) (den : positive)
    : option (Z * positive) :=
  match s with
  | EmptyString => if seen then Some (num, den) else None
  | String c s' =>
      if isDigit c
      then decimalFrom s' inFrac true (10 * num + digitVal c)
             (if inFrac then (10 * den)%positive else den)
      else if bool_decide (c = "."%char) && negb inFrac
      then decimalFrom s' true seen num den
      else None
  end.

Definition ParseFloat (s : string) : Q * bool :=
  let '(neg, body) :=
    match s with
    | String "-" s' => (true, s')
    | String "+" s' => (false, s')
    | _ => (false, s)
    end in
  match decimalFrom body false false 0 1 with
  | Some (num, den) => (Qred (Qmake (if neg then - num else num) den), false)
  | None => (0%Q, true)
  end.

Definition refLib : Storage.GoLib :=
  {| Storage.ParseDate := ParseDate;
     Storage.DateString := DateString;
     Storage.ParseFloat := ParseFloat |}.

End RefLib.

(** ** The satisfaction engine, classifier, score and graphs: package [graph]

    The functions of [internal/graph] are known through the specification
    and through the tests of the repository: they are modelled from the
    specification and checked against every expectation the tests record
    for them ([Tests] below). *)

Module Graph.
Import Storage.

(** Modelled from the spec: whether the entry of [(day, name)] exists
    and has the result [code]. *)
Definition hasResult (code : string) (entries : Entries) (name : string)
    (day : Civil.Date) : bool :=
  match entries !! (day, name) with
  | Some o => bool_decide (Result o = code)
  | None => false
  end.

(** Modelled from the spec: the evaluation window of section 3,
    [[max(date - interval + 1, firstRecordDate), date]]; this is its
    lower end. *)
Definition windowStart (d : Civil.Date) (habit : Habit) : Civil.Date :=
  Z.max (Civil.AddDays d (- Interval habit + 1)) (FirstRecord habit).

(** Modelled from the spec: the number of days of [[from, to]] with an
    entry of result [code], counted day by day. *)
Definition countIn (code : string) (entries : Entries) (name : string)
    (from to : Civil.Date) : Z :=
  Z.of_nat (length (filter (fun day => hasResult code entries name day = true)
                           (Civil.daysUp from to))).

(** Modelled from the spec: [graph.Satisfied] is missing from the
    sources; section 4.1's rule as it is worded: the successes dated in
    the evaluation window are counted, and the habit is satisfied when
    the count reaches the target. *)
Definition Satisfied (d : Civil.Date) (habit : Habit) (entries : Entries) : bool :=
  Target habit <=? countIn "y" entries (Name habit) (windowStart d habit) d.

(** Modelled from the spec: [graph.Skipified] is missing from the
    sources; section 4.2: the habit is not a daily one and a skip lies in
    the evaluation window. *)
Definition Skipified (d : Civil.Date) (habit : Habit) (entries : Entries) : bool :=
  (1 <? Interval habit)
  && existsb (hasResult "s" entries (Name habit)) (Civil.daysUp (windowStart d habit) d).

(** Modelled from the spec: the states of section 4.2. *)
Inductive DayState : Type :=
| StateSuccess
| StateSkip
| StateSatisfied
| StateNotYetTracked
| StateBreak.

#[global] Instance DayState_eq_dec : EqDecision DayState.
Proof. solve_decision. Defined.

(** Modelled from the spec: the per-day render state of section 4.2, in
    its priority order. *)
Definition classify (d : Civil.Date) (habit : Habit) (entries : Entries) : DayState :=
  if hasResult "y" entries (Name habit) d then StateSuccess
  else if hasResult "s" entries (Name habit) d then StateSkip
  else if Skipified d habit entries then StateSkip
  else if Satisfied d habit entries then StateSatisfied
  else if Civil.Before d (FirstRecord habit) then StateNotYetTracked
  else StateBreak.

(** Modelled from the spec: the habits that enter the score of a date
    (section 4.3): a target, tracking begun, no skip recorded on the
    date. *)
Definition eligible (d : Civil.Date) (entries : Entries) (habit : Habit) : bool :=
  (0 <? Target habit)
  && negb (Civil.Before d (FirstRecord habit))
  && negb (hasResult "s" entries (Name habit) d).

(** Modelled from the spec: the habits of the numerator (section 4.3):
    [Satisfied] holds and no skip is recorded on the date. *)
Definition scored (d : Civil.Date) (entries : Entries) (habit : Habit) : bool :=
  Satisfied d habit entries && negb (hasResult "s" entries (Name habit) d).

(** Modelled from the spec: [100 * part / whole], and 100 for an empty
    whole. *)
Definition percentage (part whole : nat) : Q :=
  if Nat.eqb whole 0 then 100%Q
  else Qred (Qmake (100 * Z.of_nat part) (Pos.of_nat whole)).

(** Modelled from the spec: [graph.Score] is missing from the sources;
    section 4.3, the percentage an exact rational. *)
Definition Score (d : Civil.Date) (habits : list Habit) (entries : Entries) : Q :=
  let eligibleHabits := filter (fun h => eligible d entries h = true) habits in
  let scoredHabits := filter (fun h => scored d entries h = true) eligibleHabits in
  percentage (length scoredHabits) (length eligibleHabits).

(** Modelled from the spec: a symbol of a graph, the state it draws and
    the glyph set it is drawn in. *)
Record Symbol : Type := {
  symbolState : DayState;
  symbolPlain : bool
}.

(** Modelled from the spec: [graph.BuildGraph] is missing from the
    sources; section 4.4: one symbol for each day of
    [[today - countBack, today]], chosen from the day's state. *)
Definition BuildGraph (today : Civil.Date) (habit : Habit) (entries : Entries)
    (countBack : Z) (colorless : bool) : list Symbol :=
  (fun d => {| symbolState := classify d habit entries; symbolPlain := colorless |})
    <$> Civil.daysUp (Civil.AddDays today (- countBack)) today.

(** Modelled from the spec: the fan-out, one job for each habit, its
    result keyed by the name. *)
Definition graphJobs (today : Civil.Date) (habits : list Habit) (entries : Entries)
    (countBack : Z) (colorless : bool) : list (string * list Symbol) :=
  (fun h => (Name h, BuildGraph today h entries countBack colorless)) <$> habits.

(** Modelled from the spec: the fan-in, the results stored as the jobs
    finish. *)
Definition collect (finished : list (string * list Symbol)) : gmap string (list Symbol) :=
  foldl (fun m r => <[r.1 := r.2]> m) ∅ finished.

(** Modelled from the spec: [graph.BuildGraphsParallel] is missing from
    the sources; section 4.4 and 5: the graphs of the habits computed
    one by one and merged into one mapping. *)
Definition BuildGraphsParallel (today : Civil.Date) (habits : list Habit)
    (entries : Entries) (countBack : Z) (colorless : bool) : gmap string (list Symbol) :=
  collect (graphJobs today habits entries countBack colorless).

End Graph.

(** ** Statistics: package [ui] *)

Module UI.
Import Storage Graph.

(** [ui.HabitStats], with the fields [TestHabitStatsStruct] sets. *)
Record HabitStats : Type := {
  DaysTracked : Z;
  Total : Q;
  Streaks : Z;
  Breaks : Z;
  Skips : Z
}.

(** Modelled from the spec: the count of the days classified by
    [which]. *)
Definition countState (states : list DayState) (which : DayState -> bool) : Z :=
  Z.of_nat (length (filter (fun s => which s = true) states)).

(** Modelled from the spec: the amount of the explicit outcome of a
    day. *)
Definition amountOn (entries : Entries) (name : string) (day : Civil.Date) : Q :=
  match entries !! (day, name) with
  | Some o => Amount o
  | None => 0%Q
  end.

(** Modelled from the spec: [ui.BuildStats] is missing from the
    sources; section 4.2: the days of [[firstRecordDate, today]] counted
    by their state, the amounts of their outcomes added up. *)
Definition BuildStats (today : Civil.Date) (habit : Habit) (entries : Entries) : HabitStats :=
  let days := Civil.daysUp (FirstRecord habit) today in
  let states := (fun day => classify day habit entries) <$> days in
  {| DaysTracked := Civil.DaysSince today (FirstRecord habit) + 1;
     Total := Qred (foldr Qplus 0%Q (amountOn entries (Name habit) <$> days));
     Streaks := countState states
                  (fun s => bool_decide (s = StateSuccess) || bool_decide (s = StateSatisfied));
     Breaks := countState states (fun s => bool_decide (s = StateBreak));
     Skips := countState states (fun s => bool_decide (s = StateSkip)) |}.

End UI.

(** ** The tables of the repository's tests

    The inputs and the expected results of the tests of [graph] and [ui],
    as the test files give them. *)

Module Tests.
Import Storage Graph UI.

Definition habitOf (name : string) (target interval : Z) (firstRecord : Civil.Date) : Habit :=
  {| Name := name; Heading := ""; Frequency := ""; Target := target;
     Interval := interval; FirstRecord := firstRecord |}.

Definition entry (y m d : Z) (name result : string) : DailyHabit * Outcome :=
  ((Civil.DateOf y m d, name), {| Result := result; Amount := 0; Comment := "" |}).

Definition entryAmount (y m d : Z) (name result : string) (amount : Q)
    : DailyHabit * Outcome :=
  ((Civil.DateOf y m d, name), {| Result := result; Amount := amount; Comment := "" |}).

Definition entriesOf (l : list (DailyHabit * Outcome)) : Entries := list_to_map l.

Record Case : Type := {
  caseDate : Civil.Date;
  caseHabit : Habit;
  caseEntries : Entries;
  caseWant : bool
}.

Definition TestSatisfied : list Case := [
  (* Target = 1, Interval = 1 (should always fail) *)
  {| caseDate := Civil.DateOf 2025 3 24;
     caseHabit := habitOf "Daily Walk" 1 1 Civil.zero;
     caseEntries := entriesOf [entry 2025 3 24 "Daily Walk" "y"];
     caseWant := false |};
  (* Target = 1, Interval = 7 (meets target - valid streak) *)
  {| caseDate := Civil.DateOf 2025 3 15;
     caseHabit := habitOf "Habit" 1 7 Civil.zero;
     caseEntries := entriesOf [entry 2025 3 14 "Habit" "y"; entry 2025 3 21 "Habit" "y"];
     caseWant := true |};
  (* Target = 1, Interval = 7 (streak is broken, does not meet target) *)
  {| caseDate := Civil.DateOf 2025 3 23;
     caseHabit := habitOf "Habit" 1 7 Civil.zero;
     caseEntries := entriesOf [entry 2025 3 16 "Habit" "y"; entry 2025 3 24 "Habit" "y"];
     caseWant := false |};
  (* Target = 1, Interval = 7 (no streak at all) *)
  {| caseDate := Civil.DateOf 2025 2 21;
     caseHabit := habitOf "Habit" 1 7 Civil.zero;
     caseEntries := entriesOf [entry 2025 2 9 "Habit" "y"; entry 2025 2 17 "Habit" "y";
                               entry 2025 2 25 "Habit" "y"];
     caseWant := true |};
  (* Target = 2, Interval = 7 (meets target with gap filling) *)
  {| caseDate := Civil.DateOf 2025 3 26;
     caseHabit := habitOf "Bike 10k" 2 7 Civil.zero;
     caseEntries := entriesOf [entry 2025 3 25 "Bike 10k" "y"; entry 2025 3 28 "Bike 10k" "y"];
     caseWant := true |};
  (* Target = 2, Interval = 7 (does not meet target) *)
  {| caseDate := Civil.DateOf 2025 3 27;
     caseHabit := habitOf "Bike 10k" 2 7 Civil.zero;
     caseEntries := entriesOf [entry 2025 3 23 "Bike 10k" "y"; entry 2025 3 30 "Bike 10k" "y"];
     caseWant := false |};
  (* Target = 4, Interval = 7 (does not meet target) *)
  {| caseDate := Civil.DateOf 2025 3 24;
     caseHabit := habitOf "Run 5k" 4 7 Civil.zero;
     caseEntries := entriesOf [entry 2025 3 20 "Run 5k" "y"; entry 2025 3 22 "Run 5k" "y"];
     caseWant := false |};
  (* Target = 7, Interval = 10 (meets target) *)
  {| caseDate := Civil.DateOf 2025 3 24;
     caseHabit := habitOf "Swim" 7 10 Civil.zero;
     caseEntries := entriesOf [entry 2025 3 15 "Swim" "y"; entry 2025 3 16 "Swim" "y";
                               entry 2025 3 17 "Swim" "y"; entry 2025 3 18 "Swim" "y";
                               entry 2025 3 19 "Swim" "y"; entry 2025 3 20 "Swim" "y";
                               entry 2025 3 23 "Swim" "y"];
     caseWant := true |};
  (* Target = 10, Interval = 14 (meets target) *)
  {| caseDate := Civil.DateOf 2025 3 24;
     caseHabit := habitOf "Yoga" 10 14 Civil.zero;
     caseEntries := entriesOf [entry 2025 3 11 "Yoga" "y"; entry 2025 3 12 "Yoga" "y";
                               entry 2025 3 13 "Yoga" "y"; entry 2025 3 14 "Yoga" "y";
                               entry 2025 3 15 "Yoga" "y"; entry 2025 3 16 "Yoga" "y";
                               entry 2025 3 17 "Yoga" "y"; entry 2025 3 18 "Yoga" "y";
                               entry 2025 3 19 "Yoga" "y"; entry 2025 3 22 "Yoga" "y"];
     caseWant := true |};
  (* Target = 3, Interval = 28 (does not meet target) *)
  {| caseDate := Civil.DateOf 2025 3 24;
     caseHabit := habitOf "Strength Training" 3 28 Civil.zero;
     caseEntries := entriesOf [entry 2025 3 5 "Strength Training" "y";
                               entry 2025 3 15 "Strength Training" "y"];
     caseWant := false |}
].

Definition TestSatisfiedGapScenarios : list Case := [
  (* Astro real-world scenario: 2/7 habit with 4 consecutive successes *)
  {| caseDate := Civil.DateOf 2025 8 25;
     caseHabit := habitOf "Astro" 2 7 (Civil.DateOf 2025 8 20);
     caseEntries := entriesOf [entry 2025 8 24 "Astro" "y"; entry 2025 8 25 "Astro" "y";
                               entry 2025 8 26 "Astro" "y"; entry 2025 8 27 "Astro" "y"];
     caseWant := true |};
  (* Astro scenario: Days between successes should be satisfied *)
  {| caseDate := Civil.DateOf 2025 8 25;
     caseHabit := habitOf "Astro" 2 7 (Civil.DateOf 2025 8 20);
     caseEntries := entriesOf [entry 2025 8 21 "Astro" "y"; entry 2025 8 24 "Astro" "y";
                               entry 2025 8 25 "Astro" "n"; entry 2025 8 26 "Astro" "y";
                               entry 2025 8 27 "Astro" "y"];
     caseWant := true |};
  (* 2/7 habit: Middle day with successes on both sides should be satisfied *)
  {| caseDate := Civil.DateOf 2025 8 25;
     caseHabit := habitOf "Astro" 2 7 (Civil.DateOf 2025 8 20);
     caseEntries := entriesOf [entry 2025 8 24 "Astro" "y"; entry 2025 8 25 "Astro" "n";
                               entry 2025 8 26 "Astro" "y"];
     caseWant := true |};
  (* 2/7 habit: Gap day between two pairs of successes *)
  {| caseDate := Civil.DateOf 2025 8 23;
     caseHabit := habitOf "Astro" 2 7 (Civil.DateOf 2025 8 20);
     caseEntries := entriesOf [entry 2025 8 21 "Astro" "y"; entry 2025 8 22 "Astro" "y";
                               entry 2025 8 23 "Astro" "n"; entry 2025 8 25 "Astro" "y";
                               entry 2025 8 26 "Astro" "y"];
     caseWant := true |};
  (* 3/7 habit: Gap with insufficient surrounding successes *)
  {| caseDate := Civil.DateOf 2025 8 25;
     caseHabit := habitOf "Exercise" 3 7 (Civil.DateOf 2025 8 20);
     caseEntries := entriesOf [entry 2025 8 24 "Exercise" "y"; entry 2025 8 25 "Exercise" "n";
                               entry 2025 8 26 "Exercise" "y"];
     caseWant := false |}
].

Definition writeLog : Entries :=
  entriesOf [entry 2025 8 25 "Write" "n"; entry 2025 8 26 "Write" "n";
             entry 2025 8 27 "Write" "n"; entry 2025 8 28 "Write" "y"].

Definition TestSatisfiedFutureDataBug : list Case := [
  (* 1/3 habit: Past date should not be satisfied by future success *)
  {| caseDate := Civil.DateOf 2025 8 26;
     caseHabit := habitOf "Write" 1 3 (Civil.DateOf 2025 8 25);
     caseEntries := writeLog;
     caseWant := false |};
  (* 1/3 habit: Past date should not be satisfied by future success (Aug 27) *)
  {| caseDate := Civil.DateOf 2025 8 27;
     caseHabit := habitOf "Write" 1 3 (Civil.DateOf 2025 8 25);
     caseEntries := writeLog;
     caseWant := false |};
  (* 1/3 habit: Current date with success should be satisfied *)
  {| caseDate := Civil.DateOf 2025 8 28;
     caseHabit := habitOf "Write" 1 3 (Civil.DateOf 2025 8 25);
     caseEntries := writeLog;
     caseWant := true |};
  (* 1/3 habit: Past success within window should satisfy *)
  {| caseDate := Civil.DateOf 2025 8 27;
     caseHabit := habitOf "Write" 1 3 (Civil.DateOf 2025 8 25);
     caseEntries := entriesOf [entry 2025 8 25 "Write" "y"; entry 2025 8 26 "Write" "n";
                               entry 2025 8 27 "Write" "n"];
     caseWant := true |};
  (* 2/7 habit: Date before any success should not be satisfied by future successes *)
  {| caseDate := Civil.DateOf 2025 8 24;
     caseHabit := habitOf "Exercise" 2 7 (Civil.DateOf 2025 8 20);
     caseEntries := entriesOf [entry 2025 8 25 "Exercise" "y"; entry 2025 8 26 "Exercise" "y"];
     caseWant := false |}
].

Definition TestSkipified : list Case := [
  (* Daily habit should always return false *)
  {| caseDate := Civil.DateOf 2025 3 15;
     caseHabit := habitOf "Daily" 1 1 Civil.zero;
     caseEntries := entriesOf [entry 2025 3 14 "Daily" "s"];
     caseWant := false |};
  (* Weekly habit with skip should return true *)
  {| caseDate := Civil.DateOf 2025 3 15;
     caseHabit := habitOf "Weekly" 1 7 Civil.zero;
     caseEntries := entriesOf [entry 2025 3 14 "Weekly" "s"];
     caseWant := true |};
  (* Weekly habit without skip should return false *)
  {| caseDate := Civil.DateOf 2025 3 15;
     caseHabit := habitOf "Weekly" 1 7 Civil.zero;
     caseEntries := entriesOf [entry 2025 3 14 "Weekly" "y"];
     caseWant := false |}
].

Record ScoreCase : Type := {
  scoreHabits : list Habit;
  scoreEntries : Entries;
  scoreDate : Civil.Date;
  scoreExpected : Q
}.

Definition march1 : Civil.Date := Civil.DateOf 2025 3 1.

Definition TestScoreComplex : list ScoreCase := [
  (* All habits completed *)
  {| scoreHabits := [habitOf "Test1" 1 1 march1; habitOf "Test2" 1 1 march1];
     scoreEntries := entriesOf [entry 2025 3 15 "Test1" "y"; entry 2025 3 15 "Test2" "y"];
     scoreDate := Civil.DateOf 2025 3 15;
     scoreExpected := 100 |};
  (* Half habits completed *)
  {| scoreHabits := [habitOf "Test1" 1 1 march1; habitOf "Test2" 1 1 march1];
     scoreEntries := entriesOf [entry 2025 3 15 "Test1" "y"; entry 2025 3 15 "Test2" "n"];
     scoreDate := Civil.DateOf 2025 3 15;
     scoreExpected := 50 |};
  (* One habit skipped should be excluded from score *)
  {| scoreHabits := [habitOf "Test1" 1 1 march1; habitOf "Test2" 1 1 march1];
     scoreEntries := entriesOf [entry 2025 3 15 "Test1" "y"; entry 2025 3 15 "Test2" "s"];
     scoreDate := Civil.DateOf 2025 3 15;
     scoreExpected := 100 |};
  (* Tracking habits should not affect score *)
  {| scoreHabits := [habitOf "Test1" 1 1 march1; habitOf "Track" 0 1 march1];
     scoreEntries := entriesOf [entry 2025 3 15 "Test1" "y"; entry 2025 3 15 "Track" "y"];
     scoreDate := Civil.DateOf 2025 3 15;
     scoreExpected := 100 |}
].

(** [TestScore], on the day [today] the test runs on; it expects 75. *)
Definition TestScore (today : Civil.Date) : ScoreCase :=
  {| scoreHabits := [habitOf "Test1" 1 1 Civil.zero; habitOf "Test2" 1 1 Civil.zero;
                     habitOf "Test3" 1 1 Civil.zero; habitOf "Test4" 1 1 Civil.zero];
     scoreEntries := <[(today, "Test4") := {| Result := "y"; Amount := 0; Comment := "" |}]>
                    (<[(today, "Test3") := {| Result := "n"; Amount := 0; Comment := "" |}]>
                    (<[(today, "Test2") := {| Result := "y"; Amount := 0; Comment := "" |}]>
                    (<[(today, "Test1") := {| Result := "y"; Amount := 0; Comment := "" |}]> ∅)));
     scoreDate := today;
     scoreExpected := 75 |}.

(** [TestBuildStats]: the habit and the five entries; it expects 3
    streaks, 1 break, 1 skip and a total of 10. *)
Definition statsHabit : Habit := habitOf "Test" 1 1 (Civil.DateOf 2025 3 10).

Definition statsEntries : Entries :=
  entriesOf [entryAmount 2025 3 10 "Test" "y" 5; entryAmount 2025 3 11 "Test" "y" 3;
             entryAmount 2025 3 12 "Test" "n" 0; entryAmount 2025 3 13 "Test" "s" 0;
             entryAmount 2025 3 14 "Test" "y" 2].

(** [TestBuildGraph] and [TestBuildGraphsParallel], on the day [today]
    the tests run on, with [CountBack] 7; they expect 8 symbols. *)
Definition graphHabit (today : Civil.Date) : Habit :=
  habitOf "Test" 1 1 (Civil.AddDays today (-10)).

Definition graphEntries (today : Civil.Date) : Entries :=
  <[(Civil.AddDays today (-1), "Test") := {| Result := "y"; Amount := 0; Comment := "" |}]>
  (<[(today, "Test") := {| Result := "y"; Amount := 0; Comment := "" |}]> ∅).

Definition parallelHabits (today : Civil.Date) : list Habit :=
  [habitOf "Test1" 1 1 (Civil.AddDays today (-10));
   habitOf "Test2" 1 1 (Civil.AddDays today (-10));
   habitOf "Test3" 1 1 (Civil.AddDays today (-10))].

Definition parallelEntries (today : Civil.Date) : Entries :=
  <[(today, "Test3") := {| Result := "s"; Amount := 0; Comment := "" |}]>
  (<[(today, "Test2") := {| Result := "n"; Amount := 0; Comment := "" |}]>
  (<[(today, "Test1") := {| Result := "y"; Amount := 0; Comment := "" |}]> ∅)).

(** The cases of a table on which a function gives the expected result. *)
Definition passes (f : Civil.Date -> Habit -> Entries -> bool) (c : Case) : bool :=
  bool_decide (f (caseDate c) (caseHabit c) (caseEntries c) = caseWant c).

End Tests.

(** ** Vocabulary of the statements about the log *)

Module LogSpec.
Import Strings Storage.

Definition columns : list string :=
  [HeaderDate; HeaderHabit; HeaderStatus; HeaderComment; HeaderAmount].

(** The positions of a header are slice indices that Go accepts. *)
Definition nonNegative (header : Header) : bool :=
  bool_decide (map_Forall (fun _ i => 0 ≤ i) header).

(** A line that [parseLogLine] reads as a record: not empty, not a
    comment. *)
Definition isRecord (line : string) : bool :=
  match line with
  | EmptyString => false
  | String c _ => negb (bool_decide (c = "#"%char))
  end.

(** The field of a column in a split record: present when the header
    has the column and the record reaches its position. *)
Definition fieldOfColumn (header : Header) (column : string) (fields : list string)
    : option string :=
  match header !! column with
  | Some i => if (0 <=? i) && (i <? Z.of_nat (length fields))
              then fields !! Z.to_nat i else None
  | None => None
  end.

Definition badDate (lib : GoLib) (header : Header) (fields : list string) : bool :=
  match fieldOfColumn header HeaderDate fields with
  | Some f => bool_decide (ParseDate lib f = None)
  | None => false
  end.

Definition badHabit (header : Header) (fields : list string) : bool :=
  match fieldOfColumn header HeaderHabit fields with
  | Some f => bool_decide (TrimSpace f = "")
  | None => true
  end.

Definition badStatus (header : Header) (fields : list string) : bool :=
  match fieldOfColumn header HeaderStatus fields with
  | Some f => negb (isResultCode (TrimSpace f))
  | None => false
  end.

(** The records [parseLogLine] skips. *)
Definition rejected (lib : GoLib) (header : Header) (fields : list string) : bool :=
  badDate lib header fields || badHabit header fields || badStatus header fields.

(** The record reaches the position of the status column. *)
Definition statusReadable (header : Header) (fields : list string) : bool :=
  match header !! HeaderStatus with
  | Some i => i <? Z.of_nat (length fields)
  | None => true
  end.

(** Two habits that differ in their first record at most. *)
Definition sameButFirstRecord (h h' : Habit) : Prop :=
  Name h' = Name h ∧ Heading h' = Heading h ∧ Frequency h' = Frequency h
  ∧ Target h' = Target h ∧ Interval h' = Interval h.

(** The slice after the status block: its status field trimmed. *)
Definition trimmedStatus (header : Header) (fields : list string) : list string :=
  match fieldOfColumn header HeaderStatus fields with
  | Some f => <[Z.to_nat (at_key header HeaderStatus) := TrimSpace f]> fields
  | None => fields
  end.

(** A header of the five columns at the positions 0..4. *)
Definition fiveColumns (header : Header) : bool :=
  bool_decide (dom header = list_to_set columns)
  && bool_decide (map_Forall (fun _ i => 0 ≤ i < 5) header)
  && bool_decide (NoDup (at_key header <$> columns)).

(** A field that [Split] gives back from the line: it holds no
    separator, does not end in [" :"] unless it is the last of the
    line, and does not open the line with the comment mark. *)
Definition fieldSplitsBack (position : Z) (f : string) : bool :=
  negb (Contains f " : ")
  && (bool_decide (position = 4) || negb (HasSuffix f " :"))
  && (negb (bool_decide (position = 0)) || negb (HasPrefix f "#")).

Definition splitsBack (lib : GoLib) (header : Header) (d : Civil.Date)
    (habit result comment amount : string) : bool :=
  forallb (fun column =>
             fieldSplitsBack (at_key header column)
               (fieldOf lib d habit result comment amount column))
          columns.

(** The amount [parseLogLine] reads from an amount field. *)
Definition amountOf (lib : GoLib) (amount : string) : Q :=
  if bool_decide (amount = "") then 0%Q else (ParseFloat lib amount).1.

Definition parseable (lib : GoLib) (amount : string) : bool :=
  bool_decide (amount = "") || negb (ParseFloat lib amount).2.

End LogSpec.

(** ** Vocabulary of the statements about the engine *)

Module GraphSpec.
Import Storage Graph UI.


(** The habit has an entry of result [code] on the day. *)
Definition recordedAs (code : string) (entries : Entries) (name : string)
    (day : Civil.Date) : Prop :=
  ∃ o, entries !! (day, name) = Some o ∧ Result o = code.

#[global] Instance recordedAs_dec code entries name day :
  Decision (recordedAs code entries name day).
Proof.
  unfold recordedAs. destruct (entries !! (day, name)) as [o |].
  - destruct (decide (Result o = code)) as [Hc | Hc].
    + left. by exists o.
    + right. intros (o' & [= <-] & Hr). by apply Hc.
  - right. by intros (o' & Ho & _).
Defined.




End GraphSpec.

(** ** The mock repository of the tests *)

Module Mock.
Import Storage.

(** [MockRepository]: the habits and the log it serves. *)
Record MockRepository : Type := {
  habits : list Habit;
  log : Log
}.

(** The loop of [LoadHabits]: the longest name seen so far. *)
Definition longer (maxLength : Z) (habit : Habit) : Z :=
  if maxLength <? Z.of_nat (String.length (Name habit))
  then Z.of_nat (String.length (Name habit))
  else maxLength.

(** [LoadHabits]: the habits and [maxLength + 10]; its error is nil. *)
Definition LoadHabits (m : MockRepository) : list Habit * Z :=
  (habits m, foldl longer 0 (habits m) + 10).

(** [LoadEntries]: the log; its error is nil. *)
Definition LoadEntries (m : MockRepository) : Log := log m.

(** [WriteEntry]: the repository after the call (the entries of its log
    are updated in place); its error is nil. *)
Definition WriteEntry (m : MockRepository) (d : Civil.Date)
    (habit result comment amount : string) (header : Header) : MockRepository :=
  let famount := if bool_decide (amount ≠ "") then 1%Q else 0%Q in
  {| habits := habits m;
     log := {| LogEntries :=
                 <[(d, habit) := {| Result := result; Comment := comment;
                                    Amount := famount |}]> (LogEntries (log m));
               LogHeader := LogHeader (log m) |} |}.

Definition GetConfigDir (m : MockRepository) : string := "/tmp/test".

End Mock.

(** ** Vocabulary of the statements about the load *)

Module LoadSpec.
Import Strings Storage LogSpec.

(** The date a kept record is stored under: the date of its date field,
    the zero date without one. *)
Definition storedDate (lib : GoLib) (header : Header) (fields : list string) : Civil.Date :=
  match fieldOfColumn header HeaderDate fields with
  | Some f => default Civil.zero (ParseDate lib f)
  | None => Civil.zero
  end.

(** The key and the outcome a kept record is stored as. *)
Definition storedRecord (lib : GoLib) (header : Header) (fields : list string)
    : option (DailyHabit * Outcome) :=
  let fields' := trimmedStatus header fields in
  habit ← fields' !! Z.to_nat (at_key header HeaderHabit);
  res ← fields' !! Z.to_nat (at_key header HeaderStatus);
  Some ((storedDate lib header fields, habit),
        {| Result := res;
           Amount := match fieldOfColumn header HeaderAmount fields' with
                     | Some f => amountOf lib f
                     | None => 0%Q
                     end;
           Comment := default EmptyString (fieldOfColumn header HeaderComment fields') |}).

(** What a kept record prints. *)
Definition recordWarnings (lib : GoLib) (header : Header) (fields : list string)
    (lineCount : Z) : list Warning :=
  (if bool_decide (Z.of_nat (length fields) = Z.of_nat (size header)) then []
   else [WarnFieldCount (Z.of_nat (size header)) (Z.of_nat (length fields)) lineCount])
  ++ match fieldOfColumn header HeaderAmount (trimmedStatus header fields) with
     | Some f =>
         if bool_decide (f = "") then []
         else if (ParseFloat lib f).2
              then [WarnInvalidAmount f lineCount (ParseFloat lib f).1] else []
     | None => []
     end.

(** A record that [parseLogLine] keeps. *)
Definition kept (lib : GoLib) (header : Header) (line : string) : bool :=
  isRecord line
  && negb (rejected lib header (Split line " : "))
  && statusReadable header (Split line " : ").

(** The line number a warning names. *)
Definition warningLine (w : Warning) : Z :=
  match w with
  | WarnFieldCount _ _ lineCount => lineCount
  | WarnInvalidDate lineCount _ => lineCount
  | WarnEmptyHabit lineCount => lineCount
  | WarnInvalidResult _ lineCount => lineCount
  | WarnInvalidAmount _ lineCount _ => lineCount
  end.

(** The index of the last occurrence of a word in a list, from [i]. *)
Definition lastAt (words : list string) (name : string) (p : Z) : Prop :=
  0 ≤ p ∧ words !! Z.to_nat p = Some name
  ∧ ∀ q : nat, (Z.to_nat p < q)%nat → words !! q ≠ Some name.

(** The header [LoadLog] reads the records of a file under, and the
    lines it reads as records. *)
Definition loadHeader (lines : list string) : Header :=
  default DefaultHeader (ParseHeader (hd EmptyString lines)).

Definition recordLines (lines : list string) : list string :=
  match ParseHeader (hd EmptyString lines) with
  | Some _ => tail lines
  | None => lines
  end.

(** The header line of the default header. *)
Definition defaultHeaderLine : string := "Date : Habit : Status : Comment : Amount".

(** The record a line is stored as, if it is kept. *)
Definition recordOf (lib : GoLib) (header : Header) (line : string)
    : option (DailyHabit * Outcome) :=
  if kept lib header line then storedRecord lib header (Split line " : ") else None.

(** The entries after a list of records is stored, the first one first. *)
Definition storeAll (e : Entries) (records : list (DailyHabit * Outcome)) : Entries :=
  foldl (fun acc r => <[r.1 := r.2]> acc) e records.

End LoadSpec.

(** * Properties *)

Import Strings Storage Graph UI Tests LogSpec GraphSpec LoadSpec.

(** ** Ranges of days *)

Lemma elem_of_daysUp (from to day : Civil.Date) :
  day ∈ Civil.daysUp from to ↔ from ≤ day ≤ to.
Proof. unfold Civil.daysUp. rewrite elem_of_seqZ. lia. Qed.

Lemma daysUp_empty (from to : Civil.Date) : to < from → Civil.daysUp from to = [].
Proof. intros H. unfold Civil.daysUp. apply seqZ_nil. lia. Qed.

Lemma daysUp_cons (from to : Civil.Date) :
  from ≤ to → Civil.daysUp from to = from :: Civil.daysUp (from + 1) to.
Proof.
  intros H. unfold Civil.daysUp. rewrite seqZ_cons by lia.
  f_equal. f_equal; lia.
Qed.

Lemma daysUp_split (from mid to : Civil.Date) :
  from ≤ mid + 1 → mid ≤ to →
  Civil.daysUp from to = Civil.daysUp from mid ++ Civil.daysUp (mid + 1) to.
Proof.
  intros H1 H2. unfold Civil.daysUp.
  replace (to - from + 1) with ((mid - from + 1) + (to - (mid + 1) + 1)) by lia.
  rewrite seqZ_app by lia. f_equal. f_equal. lia.
Qed.

Lemma daysUp_length (from to : Civil.Date) :
  length (Civil.daysUp from to) = Z.to_nat (to - from + 1).
Proof. apply length_seqZ. Qed.

(** Induction on a range of days, from its lower end. *)
Lemma daysUp_ind (P : Civil.Date → list Civil.Date → Prop) (to : Civil.Date) :
  (∀ from, to < from → P from []) →
  (∀ from, from ≤ to → P (from + 1) (Civil.daysUp (from + 1) to) →
           P from (from :: Civil.daysUp (from + 1) to)) →
  ∀ from, P from (Civil.daysUp from to).
Proof.
  intros Hnil Hcons from.
  destruct (Z_lt_le_dec to from) as [Hlt | Hle].
  { rewrite daysUp_empty by done. by apply Hnil. }
  remember (Z.to_nat (to - from)) as n eqn:Hn.
  revert from Hle Hn. induction n as [| n IH]; intros from Hle Hn.
  - rewrite daysUp_cons by done. apply Hcons; [done |].
    rewrite daysUp_empty by lia. apply Hnil. lia.
  - rewrite daysUp_cons by done. apply Hcons; [done |].
    apply IH; lia.
Qed.

(** ** [FirstRecords] *)

Lemma firstRecordStep_Name e dt h : Name (firstRecordStep e dt h) = Name h.
Proof. unfold firstRecordStep. by destruct (e !! (dt, Name h)). Qed.

Lemma foldl_fmap_each {A B} (g : B → A → A) (l : list B) (xs : list A) :
  foldl (fun ys b => g b <$> ys) xs l = (fun x => foldl (fun y b => g b y) x l) <$> xs.
Proof.
  revert xs. induction l as [| b l IH]; intros xs; simpl.
  - by rewrite list_fmap_id.
  - rewrite IH. by rewrite <- list_fmap_compose.
Qed.

Lemma foldl_reverse_foldr {A B} (g : B → A → A) (l : list B) (x : A) :
  foldl (fun y b => g b y) x (reverse l) = foldr g x l.
Proof.
  revert x. induction l as [| b l IH]; intros x; [done |].
  rewrite reverse_cons, foldl_app. simpl. by rewrite IH.
Qed.

(** The loops of [FirstRecords] seen from one habit: the days of
    [[from, to]] from the last one down. *)
Lemma FirstRecords_each e from to habits :
  FirstRecords e from to habits
  = (fun h => foldr (firstRecordStep e) h (Civil.daysUp from to)) <$> habits.
Proof.
  unfold FirstRecords, Civil.daysDown, firstRecordsAt.
  rewrite foldl_fmap_each. apply list_fmap_ext. intros i h _.
  apply foldl_reverse_foldr.
Qed.

Lemma firstRecord_scan e to h from :
  let h' := foldr (firstRecordStep e) h (Civil.daysUp from to) in
  sameButFirstRecord h h'
  ∧ ((∀ dt, from ≤ dt ≤ to → e !! (dt, Name h) = None) → h' = h)
  ∧ (∀ dt, from ≤ dt ≤ to → is_Some (e !! (dt, Name h)) →
       from ≤ FirstRecord h' ≤ dt ∧ is_Some (e !! (FirstRecord h', Name h))).
Proof.
  revert from. apply (daysUp_ind (fun from days =>
    let h' := foldr (firstRecordStep e) h days in
    sameButFirstRecord h h'
    ∧ ((∀ dt, from ≤ dt ≤ to → e !! (dt, Name h) = None) → h' = h)
    ∧ (∀ dt, from ≤ dt ≤ to → is_Some (e !! (dt, Name h)) →
         from ≤ FirstRecord h' ≤ dt ∧ is_Some (e !! (FirstRecord h', Name h))))).
  - intros from Hlt. simpl. split; [by repeat split |]. split; [done |]. intros; lia.
  - intros from Hle. simpl.
    set (r := foldr (firstRecordStep e) h (Civil.daysUp (from + 1) to)).
    intros (Hsame & Hnone & Hsome).
    assert (HN : Name r = Name h) by apply Hsame.
    unfold firstRecordStep. rewrite HN.
    destruct (e !! (from, Name h)) as [o |] eqn:Hfrom.
    + split; [unfold sameButFirstRecord in *; simpl; tauto |].
      split.
      * intros Hall. assert (Hf : from ≤ from ≤ to) by lia.
        apply Hall in Hf. congruence.
      * intros dt Hdt _. simpl. split; [lia |]. by rewrite Hfrom.
    + split; [done |]. split.
      * intros Hall. apply Hnone. intros dt Hdt. apply Hall. lia.
      * intros dt Hdt Hs.
        destruct (decide (dt = from)) as [-> | Hne].
        { rewrite Hfrom in Hs. by destruct Hs. }
        assert (Hd : from + 1 ≤ dt ≤ to) by lia.
        destruct (Hsome dt Hd Hs) as [? ?]. split; [lia | done].
Qed.

(** C8. After [FirstRecords(from, to, habits)] every habit keeps its
    other fields; a habit with an entry dated in [[from, to]] has as
    [FirstRecord] the earliest such date, a date on which it has an entry;
    a habit with no entry in [[from, to]] is unchanged; and [FirstRecord]
    changes only to a date on which the habit has an entry. *)
Theorem FirstRecords_earliest (e : Entries) (from to : Civil.Date) (habits : list Habit) :
  length (FirstRecords e from to habits) = length habits
  ∧ ∀ (i : nat) (h : Habit), habits !! i = Some h →
      ∃ h', FirstRecords e from to habits !! i = Some h'
        ∧ sameButFirstRecord h h'
        ∧ (∀ dt, from ≤ dt ≤ to → is_Some (e !! (dt, Name h)) →
             from ≤ FirstRecord h' ≤ dt ∧ is_Some (e !! (FirstRecord h', Name h)))
        ∧ ((∀ dt, from ≤ dt ≤ to → e !! (dt, Name h) = None) → h' = h)
        ∧ (FirstRecord h' ≠ FirstRecord h → is_Some (e !! (FirstRecord h', Name h))).
Proof.
  rewrite FirstRecords_each. split; [by rewrite length_fmap |].
  intros i h Hi. eexists. split; [by rewrite list_lookup_fmap, Hi |].
  destruct (firstRecord_scan e to h from) as (Hsame & Hnone & Hsome).
  split; [done |]. split; [done |]. split; [done |].
  intros Hne. {
    destruct (decide (Forall (fun dt => e !! (dt, Name h) = None) (Civil.daysUp from to)))
      as [Hall | Hex].
    + exfalso. apply Hne. rewrite Hnone; [done |].
      intros dt Hdt. rewrite Forall_forall in Hall. apply Hall. by apply elem_of_daysUp.
    + apply not_Forall_Exists in Hex; [| intros dt; apply _].
      apply Exists_exists in Hex as (dt & Hin & Hdt).
      apply elem_of_daysUp in Hin.
      apply (Hsome dt Hin). simpl in Hdt.
      destruct (e !! (dt, Name h)); [by eexists | by destruct Hdt]. }
Qed.

(** ** [parseLogLine] *)

Lemma index_Done {A} (s : list A) (i : Z) (x : A) :
  0 ≤ i → s !! Z.to_nat i = Some x → index s i = Done x.
Proof.
  intros Hi Hx. unfold index.
  assert (Z.to_nat i < length s)%nat by (by eapply lookup_lt_Some).
  replace ((0 <=? i) && (i <? Z.of_nat (length s))) with true
    by (symmetry; apply andb_true_iff; split; [apply Z.leb_le | apply Z.ltb_lt]; lia).
  by rewrite Hx.
Qed.

Lemma index_in_range {A} (s : list A) (i : Z) :
  0 ≤ i → i < Z.of_nat (length s) → ∃ x, s !! Z.to_nat i = Some x ∧ index s i = Done x.
Proof.
  intros H0 Hn. destruct (lookup_lt_is_Some_2 s (Z.to_nat i)) as [x Hx]; [lia |].
  exists x. split; [done |]. by apply index_Done.
Qed.

Lemma index_out_of_range {A} (s : list A) (i : Z) :
  Z.of_nat (length s) ≤ i → index s i = @Panic A.
Proof.
  intros H. unfold index.
  replace (i <? Z.of_nat (length s)) with false by (symmetry; apply Z.ltb_ge; lia).
  by rewrite andb_false_r.
Qed.

Lemma assign_in_range {A} (s : list A) (i : Z) (x : A) :
  0 ≤ i → i < Z.of_nat (length s) → assign s i x = Done (<[Z.to_nat i := x]> s).
Proof.
  intros H0 Hn. unfold assign.
  by replace ((0 <=? i) && (i <? Z.of_nat (length s))) with true
    by (symmetry; apply andb_true_iff; split; [apply Z.leb_le | apply Z.ltb_lt]; lia).
Qed.

Lemma nonNegative_lookup header column i :
  nonNegative header = true → header !! column = Some i → 0 ≤ i.
Proof.
  unfold nonNegative. rewrite bool_decide_eq_true. intros H Hi. by apply (H column i).
Qed.

Lemma DefaultHeader_nonNegative : nonNegative DefaultHeader = true.
Proof. vm_compute. reflexivity. Qed.

Lemma parseHeaderFrom_nonNegative (words : list string) (i : Z) (out header : Header) :
  0 ≤ i → nonNegative out = true →
  parseHeaderFrom words i out = Some header → nonNegative header = true.
Proof.
  revert i out. induction words as [| word rest IH]; intros i out Hi Hout Hp; simpl in Hp.
  - by injection Hp as <-.
  - destruct (isHeaderName word); [| done].
    apply (IH (i + 1) (<[word := i]> out)); [lia | | done].
    unfold nonNegative in *. apply bool_decide_eq_true. apply bool_decide_eq_true in Hout.
    by apply map_Forall_insert_2.
Qed.

(** The headers [LoadLog] reads lines under have the positions Go
    accepts. *)
Lemma ParseHeader_nonNegative (line : string) (header : Header) :
  ParseHeader line = Some header → nonNegative header = true.
Proof.
  apply parseHeaderFrom_nonNegative; [done |]. apply bool_decide_eq_true.
  apply map_Forall_empty.
Qed.

Lemma splitFrom_nonempty sep s skip cur : (0 < length (splitFrom sep s skip cur))%nat.
Proof.
  revert skip cur. induction s as [| c s IH]; intros skip cur; simpl; [lia |].
  destruct skip; [| apply IH]. case_match; simpl; [lia | apply IH].
Qed.

Lemma Split_nonempty s sep : (0 < length (Split s sep))%nat.
Proof. apply splitFrom_nonempty. Qed.

Lemma bind_Done {A B} (a : A) (k : A → Run B) : (Done a ≫= k) = k a.
Proof. reflexivity. Qed.

Lemma column_cases header column (fields : list string) :
  nonNegative header = true →
  (header !! column = None ∧ fieldOfColumn header column fields = None)
  ∨ (∃ i, header !! column = Some i ∧ 0 ≤ i ∧ (i <? Z.of_nat (length fields)) = false
          ∧ (Z.of_nat (length fields) <=? i) = true
          ∧ fieldOfColumn header column fields = None)
  ∨ (∃ i f, header !! column = Some i ∧ 0 ≤ i ∧ (i <? Z.of_nat (length fields)) = true
            ∧ (Z.of_nat (length fields) <=? i) = false
            ∧ fields !! Z.to_nat i = Some f ∧ index fields i = Done f
            ∧ fieldOfColumn header column fields = Some f).
Proof.
  intros Hnn. unfold fieldOfColumn.
  destruct (header !! column) as [i |] eqn:Hc; [| by left].
  right. pose proof (nonNegative_lookup _ _ _ Hnn Hc) as H0.
  replace (0 <=? i) with true by (symmetry; by apply Z.leb_le).
  destruct (i <? Z.of_nat (length fields)) eqn:Hlt.
  - right. pose proof Hlt as Hlt'. apply Z.ltb_lt in Hlt'.
    destruct (index_in_range fields i H0 Hlt') as (f & Hf & Hidx).
    assert ((Z.of_nat (length fields) <=? i) = false) by (apply Z.leb_gt; lia).
    exists i, f. by rewrite Hf.
  - left. pose proof Hlt as Hlt'. apply Z.ltb_ge in Hlt'.
    assert ((Z.of_nat (length fields) <=? i) = true) by (apply Z.leb_le; lia).
    by exists i.
Qed.

Lemma readDate_eq lib header fields lineCount :
  nonNegative header = true →
  readDate lib header fields lineCount
  = Done (match fieldOfColumn header HeaderDate fields with
          | Some f => match ParseDate lib f with
                      | Some cd => inl cd
                      | None => inr (WarnInvalidDate lineCount f)
                      end
          | None => inl Civil.zero
          end).
Proof.
  intros Hnn. unfold readDate.
  destruct (column_cases header HeaderDate fields Hnn)
    as [(Hd & Fd) | [(i & Hd & _ & Hlt & _ & Fd) | (i & f & Hd & _ & Hlt & _ & _ & Hidx & Fd)]];
    by rewrite Hd, ?Hlt, ?Hidx, ?bind_Done, Fd.
Qed.

Lemma habitMissing_eq header fields :
  nonNegative header = true →
  habitMissing header fields = Done (badHabit header fields).
Proof.
  intros Hnn. unfold habitMissing, badHabit.
  destruct (column_cases header HeaderHabit fields Hnn)
    as [(Hd & Fd) | [(i & Hd & _ & _ & Hle & Fd) | (i & f & Hd & _ & _ & Hle & _ & Hidx & Fd)]];
    by rewrite Hd, ?Hle, ?Hidx, ?bind_Done, Fd.
Qed.

Lemma readStatus_eq header fields lineCount :
  nonNegative header = true →
  readStatus header fields lineCount
  = Done (match fieldOfColumn header HeaderStatus fields with
          | Some f =>
              if isResultCode (TrimSpace f)
              then inl (<[Z.to_nat (at_key header HeaderStatus) := TrimSpace f]> fields)
              else inr (WarnInvalidResult (TrimSpace f) lineCount)
          | None => inl fields
          end).
Proof.
  intros Hnn. unfold readStatus, at_key.
  destruct (column_cases header HeaderStatus fields Hnn)
    as [(Hd & Fd) | [(i & Hd & _ & Hlt & _ & Fd) | (i & f & Hd & H0 & Hlt & _ & _ & Hidx & Fd)]];
    rewrite Hd, ?Hlt, ?Hidx, ?bind_Done, Fd; try done.
  rewrite assign_in_range by (try apply Z.ltb_lt; done). by rewrite bind_Done.
Qed.

(** A record with a date that does not parse, without a habit or with a
    status that is no result code is skipped with a warning. *)
Lemma parseLogLine_rejected lib line lineCount header entries :
  nonNegative header = true → isRecord line = true →
  rejected lib header (Split line " : ") = true →
  ∃ ws, ws ≠ [] ∧ parseLogLine lib line lineCount header entries = Done (entries, ws).
Proof.
  intros Hnn Hrec Hrej. unfold parseLogLine.
  destruct line as [| c rest]; [done |]. simpl in Hrec.
  destruct (bool_decide (c = "#"%char)); [done |].
  set (fields := Split (String c rest) " : ") in *.
  set (w0 := if bool_decide _ then [] else _).
  assert (Hw : ∀ w, w0 ++ [w] ≠ []) by (intros w; by destruct w0).
  unfold rejected, badDate, badStatus in Hrej.
  rewrite readDate_eq by done. rewrite bind_Done.
  destruct (fieldOfColumn header HeaderDate fields) as [fd |].
  - destruct (ParseDate lib fd) as [cd |]; [| by eexists].
    rewrite bool_decide_eq_false_2 in Hrej by done. simpl in Hrej.
    rewrite habitMissing_eq by done. rewrite bind_Done.
    destruct (badHabit header fields); [by eexists |]. simpl in Hrej.
    rewrite readStatus_eq by done. rewrite bind_Done.
    destruct (fieldOfColumn header HeaderStatus fields) as [fs |]; [| done].
    destruct (isResultCode (TrimSpace fs)); [done | by eexists].
  - simpl in Hrej.
    rewrite habitMissing_eq by done. rewrite bind_Done.
    destruct (badHabit header fields); [by eexists |]. simpl in Hrej.
    rewrite readStatus_eq by done. rewrite bind_Done.
    destruct (fieldOfColumn header HeaderStatus fields) as [fs |]; [| done].
    destruct (isResultCode (TrimSpace fs)); [done | by eexists].
Qed.

Lemma fieldOfColumn_trimmed_length header fields :
  length (trimmedStatus header fields) = length fields.
Proof.
  unfold trimmedStatus. destruct (fieldOfColumn _ _ _); [apply length_insert | done].
Qed.

Lemma readAmount_eq lib header fields lineCount :
  nonNegative header = true →
  readAmount lib header fields lineCount
  = Done (match fieldOfColumn header HeaderAmount fields with
          | Some f =>
              if bool_decide (f = "") then (0%Q, [])
              else ((ParseFloat lib f).1,
                    if (ParseFloat lib f).2
                    then [WarnInvalidAmount f lineCount (ParseFloat lib f).1] else [])
          | None => (0%Q, [])
          end).
Proof.
  intros Hnn. unfold readAmount.
  destruct (column_cases header HeaderAmount fields Hnn)
    as [(Hd & Fd) | [(i & Hd & _ & Hlt & _ & Fd) | (i & f & Hd & _ & Hlt & _ & _ & Hidx & Fd)]];
    rewrite Hd, ?Hlt, ?Hidx, ?bind_Done, Fd; try done.
  by destruct (ParseFloat lib f).
Qed.

Lemma readComment_eq header fields :
  nonNegative header = true →
  readComment header fields
  = Done (default EmptyString (fieldOfColumn header HeaderComment fields)).
Proof.
  intros Hnn. unfold readComment.
  destruct (column_cases header HeaderComment fields Hnn)
    as [(Hd & Fd) | [(i & Hd & _ & Hlt & _ & Fd) | (i & f & Hd & _ & Hlt & _ & _ & Hidx & Fd)]];
    by rewrite Hd, ?Hlt, ?Hidx, Fd.
Qed.

(** A record that is not rejected and reaches its status column is
    added, whatever its field count and its amount. *)
Lemma parseLogLine_kept lib line lineCount header entries :
  nonNegative header = true → isRecord line = true →
  let fields := Split line " : " in
  rejected lib header fields = false →
  statusReadable header fields = true →
  ∃ cd habit o ws,
    parseLogLine lib line lineCount header entries = Done (<[(cd, habit) := o]> entries, ws)
    ∧ (Z.of_nat (length fields) ≠ Z.of_nat (size header) →
       WarnFieldCount (Z.of_nat (size header)) (Z.of_nat (length fields)) lineCount ∈ ws)
    ∧ (∀ f, fieldOfColumn header HeaderAmount (trimmedStatus header fields) = Some f →
            f ≠ "" → (ParseFloat lib f).2 = true →
            Amount o = (ParseFloat lib f).1
            ∧ WarnInvalidAmount f lineCount (ParseFloat lib f).1 ∈ ws).
Proof.
  intros Hnn Hrec fields Hrej Hst. unfold parseLogLine.
  destruct line as [| c rest]; [done |]. simpl in Hrec.
  destruct (bool_decide (c = "#"%char)); [done |].
  fold fields.
  set (w0 := if bool_decide _ then [] else _).
  unfold rejected in Hrej.
  apply orb_false_iff in Hrej as [Hrej Hbs]. apply orb_false_iff in Hrej as [Hbd Hbh].
  rewrite readDate_eq by done. rewrite bind_Done.
  rewrite habitMissing_eq by done. rewrite readStatus_eq by done.
  assert (∃ cd, match fieldOfColumn header HeaderDate fields with
                | Some f => match ParseDate lib f with
                            | Some cd => inl cd
                            | None => inr (WarnInvalidDate lineCount f)
                            end
                | None => inl Civil.zero
                end = inl cd) as [cd ->].
  { unfold badDate in Hbd. destruct (fieldOfColumn header HeaderDate fields) as [f |];
      [| by eexists]. destruct (ParseDate lib f); [by eexists |].
    by rewrite bool_decide_eq_true_2 in Hbd. }
  rewrite bind_Done, Hbh, bind_Done.
  assert (match fieldOfColumn header HeaderStatus fields with
          | Some f =>
              if isResultCode (TrimSpace f)
              then inl (<[Z.to_nat (at_key header HeaderStatus) := TrimSpace f]> fields)
              else inr (WarnInvalidResult (TrimSpace f) lineCount)
          | None => inl fields
          end = inl (trimmedStatus header fields)) as ->.
  { unfold badStatus in Hbs. unfold trimmedStatus.
    destruct (fieldOfColumn header HeaderStatus fields) as [f |]; [| done].
    by destruct (isResultCode (TrimSpace f)). }
  set (fields' := trimmedStatus header fields).
  assert (Hlen : length fields' = length fields) by apply fieldOfColumn_trimmed_length.
  rewrite readAmount_eq by done. rewrite bind_Done.
  rewrite readComment_eq by done. rewrite bind_Done.
  assert (∃ habit, index fields' (at_key header HeaderHabit) = Done habit) as [habit ->].
  { unfold badHabit in Hbh.
    destruct (column_cases header HeaderHabit fields Hnn)
      as [(Hd & Fd) | [(i & Hd & _ & _ & _ & Fd) | (i & f & Hd & H0 & Hlt & _ & _ & _ & Fd)]];
      rewrite Fd in Hbh; try done.
    unfold at_key. rewrite Hd. simpl. apply Z.ltb_lt in Hlt.
    destruct (index_in_range fields' i) as (x & _ & Hx); [done | lia |]. by exists x. }
  assert (∃ res, index fields' (at_key header HeaderStatus) = Done res) as [res ->].
  { unfold statusReadable in Hst. unfold at_key.
    destruct (header !! HeaderStatus) as [i |] eqn:Hs; simpl.
    - apply Z.ltb_lt in Hst. pose proof (nonNegative_lookup _ _ _ Hnn Hs).
      destruct (index_in_range fields' i) as (x & _ & Hx); [done | lia |]. by exists x.
    - pose proof (Split_nonempty (String c rest) " : "). fold fields in H.
      destruct (index_in_range fields' 0) as (x & _ & Hx); [done | lia |]. by exists x. }
  rewrite !bind_Done.
  eexists cd, habit, _, _. split; [reflexivity |]. split.
  - intros Hne. unfold w0. rewrite bool_decide_eq_false_2 by done.
    apply elem_of_app. left. apply list_elem_of_singleton. done.
  - intros f Hf Hne Herr. rewrite Hf. rewrite bool_decide_eq_false_2 by done.
    simpl. split; [done |]. rewrite Herr. apply elem_of_app. right.
    by apply list_elem_of_singleton.
Qed.

Lemma fmap_fst_bind {A W} (r : Run (A * list W)) (ws : list W) :
  fst <$> (r2 ← r; Done (r2.1, ws ++ r2.2)) = fst <$> r.
Proof. by destruct r. Qed.

(** The entries [parseLogLine] leaves do not depend on the line number. *)
Lemma parseLogLine_any_count lib line c c' header entries :
  nonNegative header = true →
  fst <$> parseLogLine lib line c header entries
  = fst <$> parseLogLine lib line c' header entries.
Proof.
  intros Hnn. unfold parseLogLine.
  destruct line as [| ch rest]; [done |].
  destruct (bool_decide (ch = "#"%char)); [done |].
  set (fields := Split (String ch rest) " : ").
  rewrite !readDate_eq, !bind_Done by done.
  destruct (fieldOfColumn header HeaderDate fields) as [fd |].
  - destruct (ParseDate lib fd) as [cd |]; [| done].
    rewrite !habitMissing_eq, !bind_Done by done.
    destruct (badHabit header fields); [done |].
    rewrite !readStatus_eq, !bind_Done by done.
    destruct (fieldOfColumn header HeaderStatus fields) as [fs |].
    + destruct (isResultCode (TrimSpace fs)); [| done].
      rewrite !readAmount_eq, !bind_Done, !readComment_eq, !bind_Done by done.
      destruct (index _ (at_key header HeaderHabit)); [| done].
      destruct (index _ (at_key header HeaderStatus)); [| done].
      rewrite !bind_Done. simpl.
      destruct (fieldOfColumn header HeaderAmount _) as [fa |]; [| done].
      by destruct (bool_decide (fa = "")).
    + rewrite !readAmount_eq, !bind_Done, !readComment_eq, !bind_Done by done.
      destruct (index _ (at_key header HeaderHabit)); [| done].
      destruct (index _ (at_key header HeaderStatus)); [| done].
      rewrite !bind_Done. simpl.
      destruct (fieldOfColumn header HeaderAmount _) as [fa |]; [| done].
      by destruct (bool_decide (fa = "")).
  - rewrite !habitMissing_eq, !bind_Done by done.
    destruct (badHabit header fields); [done |].
    rewrite !readStatus_eq, !bind_Done by done.
    destruct (fieldOfColumn header HeaderStatus fields) as [fs |].
    + destruct (isResultCode (TrimSpace fs)); [| done].
      rewrite !readAmount_eq, !bind_Done, !readComment_eq, !bind_Done by done.
      destruct (index _ (at_key header HeaderHabit)); [| done].
      destruct (index _ (at_key header HeaderStatus)); [| done].
      rewrite !bind_Done. simpl.
      destruct (fieldOfColumn header HeaderAmount _) as [fa |]; [| done].
      by destruct (bool_decide (fa = "")).
    + rewrite !readAmount_eq, !bind_Done, !readComment_eq, !bind_Done by done.
      destruct (index _ (at_key header HeaderHabit)); [| done].
      destruct (index _ (at_key header HeaderStatus)); [| done].
      rewrite !bind_Done. simpl.
      destruct (fieldOfColumn header HeaderAmount _) as [fa |]; [| done].
      by destruct (bool_decide (fa = "")).
Qed.

Lemma parseLines_any_count lib lines c c' header entries :
  nonNegative header = true →
  fst <$> parseLines lib lines c header entries
  = fst <$> parseLines lib lines c' header entries.
Proof.
  intros Hnn. revert c c' entries.
  induction lines as [| line rest IH]; intros c c' entries; [done |].
  simpl.
  pose proof (parseLogLine_any_count lib line (c + 1) (c' + 1) header entries Hnn) as H1.
  destruct (parseLogLine lib line (c + 1) header entries) as [[e1 w1] |],
           (parseLogLine lib line (c' + 1) header entries) as [[e1' w1'] |];
    try done.
  injection H1 as ->. rewrite !bind_Done. simpl. rewrite !fmap_fst_bind. apply IH.
Qed.

(** A line that is skipped leaves the load as it is without the line. *)
Lemma parseLines_skip lib line header before after c entries :
  nonNegative header = true →
  (∀ c' e, ∃ ws, parseLogLine lib line c' header e = Done (e, ws)) →
  fst <$> parseLines lib (before ++ line :: after) c header entries
  = fst <$> parseLines lib (before ++ after) c header entries.
Proof.
  intros Hnn Hskip. revert c entries.
  induction before as [| b before IH]; intros c entries; simpl.
  - destruct (Hskip (c + 1) entries) as [ws ->]. rewrite bind_Done. simpl.
    rewrite fmap_fst_bind. by apply parseLines_any_count.
  - destruct (parseLogLine lib b (c + 1) header entries) as [[e1 w1] |]; [| done].
    rewrite !bind_Done. simpl. rewrite !fmap_fst_bind. apply IH.
Qed.

(** C9. Under a header with positions Go accepts, a record whose date
    does not parse, whose habit is missing or blank, or whose trimmed
    status is none of y, n, s gives a warning and is skipped: the entries
    are unchanged and the load goes on as if the line were absent.  A
    record that is not one of these and reaches its status column is
    added, a field count that differs from the header's and an amount
    that does not parse giving a warning only. *)
Theorem parseLogLine_malformed (lib : GoLib) (line : string) (lineCount : Z)
    (header : Header) (entries : Entries) :
  nonNegative header = true → isRecord line = true →
  let fields := Split line " : " in
  (rejected lib header fields = true →
     (∃ ws, ws ≠ [] ∧ parseLogLine lib line lineCount header entries = Done (entries, ws))
     ∧ ∀ before after c e0,
         fst <$> parseLines lib (before ++ line :: after) c header e0
         = fst <$> parseLines lib (before ++ after) c header e0)
  ∧ (rejected lib header fields = false → statusReadable header fields = true →
     ∃ cd habit o ws,
       parseLogLine lib line lineCount header entries = Done (<[(cd, habit) := o]> entries, ws)
       ∧ (Z.of_nat (length fields) ≠ Z.of_nat (size header) →
          WarnFieldCount (Z.of_nat (size header)) (Z.of_nat (length fields)) lineCount ∈ ws)
       ∧ (∀ f, fieldOfColumn header HeaderAmount (trimmedStatus header fields) = Some f →
               f ≠ "" → (ParseFloat lib f).2 = true →
               Amount o = (ParseFloat lib f).1
               ∧ WarnInvalidAmount f lineCount (ParseFloat lib f).1 ∈ ws)).
Proof.
  intros Hnn Hrec fields. split.
  - intros Hrej. split; [by apply parseLogLine_rejected |].
    intros before after c e0. apply parseLines_skip; [done |].
    intros c' e. destruct (parseLogLine_rejected lib line c' header e Hnn Hrec Hrej)
      as (ws & _ & Hws). by exists ws.
  - intros Hrej Hst. by apply parseLogLine_kept.
Qed.

Lemma parseLogLine_malformed_witness :
  ∃ ws, ws ≠ []
    ∧ parseLogLine RefLib.refLib "2025-01-01 : Walk : q : note : 2" 7 DefaultHeader ∅
      = Done (∅, ws).
Proof.
  apply (parseLogLine_malformed RefLib.refLib "2025-01-01 : Walk : q : note : 2" 7
           DefaultHeader ∅); vm_compute; reflexivity.
Defined.

(** A record with an amount that does not parse is added, with the
    amount [ParseFloat] returned. *)
Lemma unparseable_amount_is_kept :
  (ParseFloat RefLib.refLib "abc").2 = true
  ∧ parseLogLine RefLib.refLib "2025-01-01 : Walk : y : note : abc" 1 DefaultHeader ∅
    = Done (<[(Civil.DateOf 2025 1 1, "Walk") :=
                {| Result := "y"; Amount := 0; Comment := "note" |}]> ∅,
            [WarnInvalidAmount "abc" 1 0]).
Proof. split; vm_compute; reflexivity. Qed.

(** A record with more fields than the header is added. *)
Lemma extra_field_is_kept :
  parseLogLine RefLib.refLib "2025-01-01 : Walk : y : note : 2 : more" 1 DefaultHeader ∅
  = Done (<[(Civil.DateOf 2025 1 1, "Walk") :=
              {| Result := "y"; Amount := 2; Comment := "note" |}]> ∅,
          [WarnFieldCount 5 6 1]).
Proof. vm_compute. reflexivity. Qed.

(** A status with white space around it is accepted. *)
Lemma padded_status_is_kept :
  parseLogLine RefLib.refLib "2025-01-01 : Walk :  y : note : 2" 1 DefaultHeader ∅
  = Done (<[(Civil.DateOf 2025 1 1, "Walk") :=
              {| Result := "y"; Amount := 2; Comment := "note" |}]> ∅, []).
Proof. vm_compute. reflexivity. Qed.

(** A record that stops before the status column of the header ends the
    load: [result[header[HeaderStatus]]] is out of range. *)
(** A habit name of a no-break space alone is blank. *)
Lemma TrimSpace_examples :
  TrimSpace (String (ascii_of_nat 194) (String (ascii_of_nat 160) "")) = ""
  ∧ TrimSpace "  a b  " = "a b"
  ∧ TrimSpace (String (ascii_of_nat 226) (String (ascii_of_nat 128)
                 (String (ascii_of_nat 137) "y "))) = "y"
  ∧ TrimSpace (String (ascii_of_nat 240) (String (ascii_of_nat 159)
                 (String (ascii_of_nat 154) (String (ascii_of_nat 128) ""))))
    = String (ascii_of_nat 240) (String (ascii_of_nat 159)
        (String (ascii_of_nat 154) (String (ascii_of_nat 128) ""))).
Proof. repeat split; vm_compute; reflexivity. Qed.

Lemma short_record_panics :
  parseLogLine RefLib.refLib "2025-01-01 : Walk" 1 DefaultHeader ∅ = Panic.
Proof. vm_compute. reflexivity. Qed.

(** ** [strings.Split] after [strings.Join] *)

Lemma append_cons (c : ascii) (s t : string) : String c s +:+ t = String c (s +:+ t).
Proof. reflexivity. Qed.

Lemma append_nil_l (t : string) : "" +:+ t = t.
Proof. reflexivity. Qed.

Lemma append_nil_r (s : string) : s +:+ "" = s.
Proof. induction s as [| c s IH]; [done |]. by rewrite append_cons, IH. Qed.

Lemma append_assoc (s1 s2 s3 : string) : (s1 +:+ s2) +:+ s3 = s1 +:+ (s2 +:+ s3).
Proof.
  induction s1 as [| c s1 IH]; [done |]. by rewrite !append_cons, IH.
Qed.

(** Inside a field followed by a separator, a separator starts only
    where the field holds one, or at the end of a field that is [" :"]
    from there. *)
Lemma prefix_sep_app (t rest : string) :
  t ≠ "" →
  HasPrefix (t +:+ " : " +:+ rest) " : " = HasPrefix t " : " || bool_decide (t = " :").
Proof.
  intros Hne.
  destruct t as [| c1 [| c2 [| c3 t]]]; [done | | |];
    rewrite ?append_cons, ?append_nil_l; simpl;
    repeat (case_bool_decide; simplify_eq; simpl); done.
Qed.

Lemma splitFrom_cons (sep : string) (c : ascii) (s cur : string) :
  splitFrom sep (String c s) 0 cur
  = if HasPrefix (String c s) sep
    then cur :: splitFrom sep s (String.length sep - 1) ""
    else splitFrom sep s 0 (cur +:+ String c "").
Proof. reflexivity. Qed.

Lemma splitFrom_field (f rest cur : string) :
  Contains f " : " = false → HasSuffix f " :" = false →
  splitFrom " : " (f +:+ " : " +:+ rest) 0 cur
  = (cur +:+ f) :: splitFrom " : " rest 0 "".
Proof.
  revert cur. induction f as [| c f IH]; intros cur Hc Hs.
  - by rewrite append_nil_r.
  - pose proof (prefix_sep_app (String c f) rest ltac:(done)) as Hp.
    simpl in Hc, Hs. apply orb_false_iff in Hc as [Hc1 Hc2].
    apply orb_false_iff in Hs as [Hs1 Hs2].
    fold (HasPrefix (String c f) " : ") in Hc1.
    rewrite Hc1, Hs1 in Hp. rewrite append_cons in Hp |- *.
    rewrite splitFrom_cons, Hp, IH by done.
    by rewrite append_assoc.
Qed.

Lemma splitFrom_last (last cur : string) :
  Contains last " : " = false → splitFrom " : " last 0 cur = [cur +:+ last].
Proof.
  revert cur. induction last as [| c last IH]; intros cur Hc.
  - by rewrite append_nil_r.
  - simpl in Hc. apply orb_false_iff in Hc as [Hc1 Hc2].
    fold (HasPrefix (String c last) " : ") in Hc1.
    rewrite splitFrom_cons, Hc1, IH by done.
    by rewrite append_assoc.
Qed.

Lemma Join_cons (f : string) (rest : list string) (sep : string) :
  rest ≠ [] → Join (f :: rest) sep = f +:+ sep +:+ Join rest sep.
Proof. by destruct rest. Qed.

(** [Split] gives back the fields [Join] put together when no field
    holds the separator and none but the last ends in [" :"]. *)
Lemma Split_Join (fields : list string) (last : string) :
  Forall (fun f => Contains f " : " = false ∧ HasSuffix f " :" = false) fields →
  Contains last " : " = false →
  Split (Join (fields ++ [last]) " : ") " : " = fields ++ [last].
Proof.
  intros Hf Hl. unfold Split. induction Hf as [| f fields [Hc Hs] _ IH]; simpl app.
  - simpl. by apply splitFrom_last.
  - rewrite Join_cons by (by destruct fields).
    rewrite splitFrom_field by done. simpl. by rewrite IH.
Qed.

(** ** The line [WriteHabitLog] writes, read back by [parseLogLine] *)

Lemma columns_NoDup : NoDup columns.
Proof. by apply (bool_decide_unpack _). Qed.

Lemma NoDup_fmap_inj_on {A B} (f : A → B) (l : list A) (x y : A) :
  NoDup (f <$> l) → x ∈ l → y ∈ l → f x = f y → x = y.
Proof.
  induction l as [| a l IH]; intros Hnd Hx Hy E; [by apply elem_of_nil in Hx |].
  rewrite fmap_cons in Hnd. apply NoDup_cons in Hnd as [Hn Hnd].
  apply elem_of_cons in Hx as [-> | Hx]; apply elem_of_cons in Hy as [-> | Hy]; try done.
  - exfalso. apply Hn. rewrite E. by apply list_elem_of_fmap_2.
  - exfalso. apply Hn. rewrite <- E. by apply list_elem_of_fmap_2.
  - by apply IH.
Qed.

Lemma fiveColumns_facts header :
  fiveColumns header = true →
  size header = 5%nat
  ∧ (∀ k i, header !! k = Some i → 0 ≤ i < 5 ∧ k ∈ columns)
  ∧ (∀ k, k ∈ columns → ∃ i, header !! k = Some i)
  ∧ (∀ k1 k2 i, header !! k1 = Some i → header !! k2 = Some i → k1 = k2)
  ∧ nonNegative header = true.
Proof.
  unfold fiveColumns. rewrite !andb_true_iff, !bool_decide_eq_true.
  intros [[Hdom Hrange] Hinj].
  assert (Hin : ∀ k i, header !! k = Some i → k ∈ columns).
  { intros k i Hk. apply (elem_of_dom_2 (D := gset string)) in Hk.
    rewrite Hdom in Hk. by apply elem_of_list_to_set in Hk. }
  assert (Hex : ∀ k, k ∈ columns → ∃ i, header !! k = Some i).
  { intros k Hk. apply (elem_of_list_to_set (C := gset string)) in Hk.
    rewrite <- Hdom in Hk. by apply elem_of_dom in Hk. }
  split; [| split; [| split; [| split]]].
  - rewrite <- (size_dom (D := gset string)), Hdom.
    by rewrite size_list_to_set by apply columns_NoDup.
  - intros k i Hk. split; [by apply (Hrange k i) | by eapply Hin].
  - done.
  - intros k1 k2 i H1 H2.
    pose proof (Hin _ _ H1) as Hk1. pose proof (Hin _ _ H2) as Hk2.
    assert (E : at_key header k1 = at_key header k2)
      by (unfold at_key; by rewrite H1, H2).
    by apply (NoDup_fmap_inj_on (at_key header) columns).
  - unfold nonNegative. apply bool_decide_eq_true.
    intros k i Hk. apply (Hrange k i) in Hk. lia.
Qed.

(** The slice [WriteHabitLog] fills: each column's field at the
    column's position, nothing else written. *)
Lemma logFields_spec lib d habit result comment amount (header : Header) :
  (∀ k i, header !! k = Some i → 0 ≤ i < Z.of_nat (size header)) →
  (∀ k1 k2 i, header !! k1 = Some i → header !! k2 = Some i → k1 = k2) →
  ∃ fields,
    logFields lib d habit result comment amount header = Done fields
    ∧ length fields = size header
    ∧ (∀ k i, header !! k = Some i →
         fields !! Z.to_nat i = Some (fieldOf lib d habit result comment amount k))
    ∧ (∀ j f, fields !! j = Some f →
         f = "" ∨ ∃ k i, header !! k = Some i ∧ Z.to_nat i = j
                         ∧ f = fieldOf lib d habit result comment amount k).
Proof.
  intros Hrange Hinj. unfold logFields.
  set (N := size header).
  cut (header ⊆ header →
       ∃ fields,
         map_fold (fun column i acc =>
                     fields ← acc;
                     assign fields i (fieldOf lib d habit result comment amount column))
                  (Done (replicate N EmptyString)) header = Done fields
         ∧ length fields = N
         ∧ (∀ k i, header !! k = Some i →
              fields !! Z.to_nat i = Some (fieldOf lib d habit result comment amount k))
         ∧ (∀ j f, fields !! j = Some f →
              f = "" ∨ ∃ k i, header !! k = Some i ∧ Z.to_nat i = j
                              ∧ f = fieldOf lib d habit result comment amount k)).
  { intros H. by apply H. }
  generalize header at 1 3 4 5 as m.
  apply (map_fold_weak_ind (fun r (m : Header) =>
    m ⊆ header →
    ∃ fields, r = Done fields ∧ length fields = N
      ∧ (∀ k i, m !! k = Some i →
           fields !! Z.to_nat i = Some (fieldOf lib d habit result comment amount k))
      ∧ (∀ j f, fields !! j = Some f →
           f = "" ∨ ∃ k i, m !! k = Some i ∧ Z.to_nat i = j
                           ∧ f = fieldOf lib d habit result comment amount k))).
  - intros _. exists (replicate N EmptyString). split; [done |].
    split; [by rewrite length_replicate |]. split; [done |].
    intros j f Hj. left. by apply lookup_replicate in Hj as [-> _].
  - intros k i m r Hk IH Hsub.
    assert (Hm : m ⊆ header).
    { etrans; [| exact Hsub]. by apply insert_subseteq. }
    destruct (IH Hm) as (fields & -> & Hlen & Hwritten & Honly).
    assert (Hki : header !! k = Some i).
    { eapply lookup_weaken; [| exact Hsub]. apply lookup_insert_eq. }
    pose proof (Hrange k i Hki) as Hi.
    rewrite bind_Done, assign_in_range by lia.
    eexists. split; [done |]. split; [by rewrite length_insert |]. split.
    + intros k' i' Hk'. destruct (decide (k = k')) as [<- | Hne].
      * rewrite lookup_insert_eq in Hk'. injection Hk' as <-.
        apply list_lookup_insert_eq. lia.
      * rewrite lookup_insert_ne in Hk' by done.
        assert (i ≠ i').
        { intros <-. apply Hne. apply (Hinj k k' i); [done |].
          by eapply lookup_weaken. }
        assert (0 ≤ i') by (apply (Hrange k' i'); by eapply lookup_weaken).
        rewrite list_lookup_insert_ne by lia. by apply Hwritten.
    + intros j f Hj. destruct (decide (Z.to_nat i = j)) as [<- | Hne].
      * rewrite list_lookup_insert_eq in Hj by lia. injection Hj as <-.
        right. exists k, i. by rewrite lookup_insert_eq.
      * rewrite list_lookup_insert_ne in Hj by done.
        destruct (Honly j f Hj) as [-> | (k' & i' & Hk' & <- & ->)]; [by left |].
        right. exists k', i'. split; [| done].
        rewrite lookup_insert_ne; [done |]. intros <-. by rewrite Hk in Hk'.
Qed.

Lemma fieldOfColumn_written header column (fields : list string) i f :
  header !! column = Some i → 0 ≤ i < Z.of_nat (length fields) →
  fields !! Z.to_nat i = Some f →
  fieldOfColumn header column fields = Some f.
Proof.
  intros Hc Hi Hf. unfold fieldOfColumn. rewrite Hc.
  replace ((0 <=? i) && (i <? Z.of_nat (length fields))) with true; [done |].
  symmetry. apply andb_true_iff. split; [apply Z.leb_le | apply Z.ltb_lt]; lia.
Qed.

Lemma isResultCode_trimmed result :
  isResultCode result = true → TrimSpace result = result.
Proof.
  unfold isResultCode. rewrite !orb_true_iff, !bool_decide_eq_true.
  by intros [[-> | ->] | ->].
Qed.

Lemma fieldSplitsBack_inner position f :
  fieldSplitsBack position f = true → position ≠ 4 →
  Contains f " : " = false ∧ HasSuffix f " :" = false.
Proof.
  unfold fieldSplitsBack. rewrite !andb_true_iff, !orb_true_iff, !negb_true_iff.
  intros [[Hc [H4 | Hs]] _] Hne; [| done]. by apply bool_decide_eq_true in H4.
Qed.

Lemma fieldSplitsBack_any position f :
  fieldSplitsBack position f = true → Contains f " : " = false.
Proof.
  unfold fieldSplitsBack. rewrite !andb_true_iff, !negb_true_iff. by intros [[Hc _] _].
Qed.

Lemma fieldSplitsBack_first f :
  fieldSplitsBack 0 f = true → HasPrefix f "#" = false.
Proof.
  unfold fieldSplitsBack. rewrite !andb_true_iff, !orb_true_iff, !negb_true_iff.
  intros [_ [H0 | Hp]]; [| done]. by rewrite bool_decide_eq_true_2 in H0.
Qed.

Lemma isRecord_Join f0 f1 rest :
  HasPrefix f0 "#" = false → isRecord (Join (f0 :: f1 :: rest) " : ") = true.
Proof.
  intros Hp. rewrite Join_cons by done. destruct f0 as [| c f0]; [done |].
  rewrite append_cons. simpl in *. rewrite andb_true_r in Hp.
  apply negb_true_iff. apply bool_decide_eq_false. apply bool_decide_eq_false in Hp.
  congruence.
Qed.

(** C10. Under a header of the five columns at the positions 0..4, the
    line [WriteHabitLog] writes for a date the library reads back, a
    habit name that is not blank, a result y, n or s, a comment and an
    amount that is empty or parses, when no field holds the separator,
    none but the last of the line ends in [" :"] and the line does not
    open with the comment mark: [parseLogLine] reads the line without a
    warning and adds the one entry of that date and habit, with the
    result and the comment as written and the amount the library reads. *)
Theorem write_then_parse (lib : GoLib) (header : Header) (d : Civil.Date)
    (habit result comment amount : string) (lineCount : Z) (entries : Entries) :
  fiveColumns header = true →
  ParseDate lib (DateString lib d) = Some d →
  TrimSpace habit ≠ "" →
  isResultCode result = true →
  parseable lib amount = true →
  splitsBack lib header d habit result comment amount = true →
  ∃ line,
    logEntry lib d habit result comment amount header = Done line
    ∧ parseLogLine lib line lineCount header entries
      = Done (<[(d, habit) := {| Result := result; Amount := amountOf lib amount;
                                 Comment := comment |}]> entries, []).
Proof.
  intros Hfive Hdate Hhabit Hres Hamt Hsplit.
  destruct (fiveColumns_facts header Hfive) as (Hsize & Hrange & Hex & Hinj & Hnn).
  destruct (logFields_spec lib d habit result comment amount header)
    as (fields & Hfields & Hlen & Hwritten & Honly).
  { intros k i Hk. rewrite Hsize. by apply (Hrange k i). }
  { done. }
  unfold logEntry. rewrite Hfields, bind_Done. eexists. split; [reflexivity |].
  rewrite Hsize in Hlen.
  set (fld := fieldOf lib d habit result comment amount) in *.
  (* what [splitsBack] says of each column *)
  assert (Hcol : ∀ k i, header !! k = Some i → fieldSplitsBack i (fld k) = true).
  { intros k i Hk. unfold splitsBack in Hsplit. rewrite forallb_forall in Hsplit.
    specialize (Hsplit k). unfold at_key in Hsplit. rewrite Hk in Hsplit.
    apply Hsplit. apply list_elem_of_In. by apply (Hrange k i). }
  (* the slice, field by field *)
  destruct fields as [| f0 [| f1 [| f2 [| f3 [| f4 [| ? ?]]]]]]; try done.
  assert (Hinner : ∀ j f, (j < 4)%nat → [f0; f1; f2; f3; f4] !! j = Some f →
                          Contains f " : " = false ∧ HasSuffix f " :" = false).
  { intros j f Hj Hf. destruct (Honly j f Hf) as [-> | (k & i & Hk & <- & ->)]; [done |].
    apply (fieldSplitsBack_inner i); [by apply Hcol | lia]. }
  assert (Hlast : Contains f4 " : " = false).
  { destruct (Honly 4%nat f4 eq_refl) as [-> | (k & i & Hk & _ & ->)]; [done |].
    apply (fieldSplitsBack_any i). by apply Hcol. }
  assert (Hfirst : HasPrefix f0 "#" = false).
  { destruct (Honly 0%nat f0 eq_refl) as [-> | (k & i & Hk & Hi & ->)]; [done |].
    apply fieldSplitsBack_first. replace 0 with i; [by apply Hcol |].
    pose proof (Hrange k i Hk). lia. }
  assert (Hback : Split (Join [f0; f1; f2; f3; f4] " : ") " : " = [f0; f1; f2; f3; f4]).
  { apply (Split_Join [f0; f1; f2; f3] f4); [| done].
    apply Forall_cons; split; [apply (Hinner 0%nat); [lia | done] |].
    apply Forall_cons; split; [apply (Hinner 1%nat); [lia | done] |].
    apply Forall_cons; split; [apply (Hinner 2%nat); [lia | done] |].
    apply Forall_cons; split; [apply (Hinner 3%nat); [lia | done] |].
    apply Forall_nil_2. }
  pose proof (isRecord_Join f0 f1 [f2; f3; f4] Hfirst) as Hrec.
  set (fields := [f0; f1; f2; f3; f4]) in *.
  (* the five columns in the slice *)
  assert (Hfield : ∀ k, k ∈ columns → fieldOfColumn header k fields = Some (fld k)
                        ∧ index fields (at_key header k) = Done (fld k)).
  { intros k Hk. destruct (Hex k Hk) as [i Hi].
    pose proof (Hrange k i Hi) as [Hi' _]. pose proof (Hwritten k i Hi) as Hw.
    split.
    - apply (fieldOfColumn_written header k fields i); [done | simpl; lia | done].
    - unfold at_key. rewrite Hi. simpl. apply index_Done; [lia | done]. }
  destruct (Hfield HeaderDate) as [FD _]; [by apply (bool_decide_unpack _) |].
  destruct (Hfield HeaderHabit) as [FH IH]; [by apply (bool_decide_unpack _) |].
  destruct (Hfield HeaderStatus) as [FS IS]; [by apply (bool_decide_unpack _) |].
  destruct (Hfield HeaderComment) as [FC _]; [by apply (bool_decide_unpack _) |].
  destruct (Hfield HeaderAmount) as [FA _]; [by apply (bool_decide_unpack _) |].
  change (fld HeaderDate) with (DateString lib d) in FD.
  change (fld HeaderHabit) with habit in FH, IH.
  change (fld HeaderStatus) with result in FS, IS.
  change (fld HeaderComment) with comment in FC.
  change (fld HeaderAmount) with amount in FA.
  (* the parse *)
  unfold parseLogLine.
  destruct (Join fields " : ") as [| c rest] eqn:Hline; [done |].
  simpl in Hrec. apply negb_true_iff in Hrec. rewrite Hrec, Hback.
  rewrite bool_decide_eq_true_2 by (by rewrite Hsize).
  rewrite readDate_eq, FD, Hdate, bind_Done by done.
  rewrite habitMissing_eq by done. unfold badHabit. rewrite FH.
  rewrite bool_decide_eq_false_2, bind_Done by done.
  rewrite readStatus_eq, FS by done.
  rewrite (isResultCode_trimmed result Hres), Hres, bind_Done.
  assert (Hid : <[Z.to_nat (at_key header HeaderStatus) := result]> fields = fields).
  { apply list_insert_id. destruct (Hex HeaderStatus) as [i Hi]; [by apply (bool_decide_unpack _) |].
    unfold at_key. rewrite Hi. simpl. rewrite (Hwritten _ _ Hi). done. }
  rewrite Hid.
  rewrite readAmount_eq, FA, bind_Done by done.
  rewrite readComment_eq, FC, bind_Done by done.
  rewrite IH, IS, !bind_Done. simpl.
  unfold parseable in Hamt. unfold amountOf.
  destruct (bool_decide (amount = "")); [done |].
  simpl in Hamt. apply negb_true_iff in Hamt. by rewrite Hamt.
Qed.

Lemma write_then_parse_witness :
  ∃ line,
    logEntry RefLib.refLib (Civil.DateOf 2025 1 15) "Walk" "y" "nice day" "2.5" DefaultHeader
    = Done line
    ∧ parseLogLine RefLib.refLib line 3 DefaultHeader ∅
      = Done (<[(Civil.DateOf 2025 1 15, "Walk") :=
                  {| Result := "y"; Amount := amountOf RefLib.refLib "2.5";
                     Comment := "nice day" |}]> ∅, []).
Proof.
  apply (write_then_parse RefLib.refLib DefaultHeader (Civil.DateOf 2025 1 15)
           "Walk" "y" "nice day" "2.5" 3 ∅); vm_compute; done.
Defined.

(** A comment that ends in [" :"] holds no separator, yet the line
    written for it splits one field early: the comment read back is cut
    and the amount is not the one written. *)
Lemma comment_before_separator_is_cut :
  Contains "see note :" " : " = false
  ∧ logEntry RefLib.refLib (Civil.DateOf 2025 1 1) "Walk" "y" "see note :" "" DefaultHeader
    = Done "2025-01-01 : Walk : y : see note : : "
  ∧ parseLogLine RefLib.refLib "2025-01-01 : Walk : y : see note : : " 1 DefaultHeader ∅
    = Done (<[(Civil.DateOf 2025 1 1, "Walk") :=
                {| Result := "y"; Amount := 0; Comment := "see note" |}]> ∅,
            [WarnInvalidAmount ": " 1 0]).
Proof. repeat split; vm_compute; reflexivity. Qed.

(** A habit name of white space is not empty, yet its line is skipped. *)
Lemma blank_habit_is_skipped :
  logEntry RefLib.refLib (Civil.DateOf 2025 1 1) " " "y" "note" "1" DefaultHeader
  = Done "2025-01-01 :   : y : note : 1"
  ∧ parseLogLine RefLib.refLib "2025-01-01 :   : y : note : 1" 1 DefaultHeader ∅
    = Done (∅, [WarnEmptyHabit 1]).
Proof. split; vm_compute; reflexivity. Qed.

(** Under a header with the habit first, a habit name that opens with
    the comment mark writes a line that is read as a comment. *)
Lemma comment_mark_is_skipped :
  let header : Header :=
    <[HeaderHabit := 0]> (<[HeaderDate := 1]> (<[HeaderStatus := 2]>
      (<[HeaderComment := 3]> (<[HeaderAmount := 4]> ∅)))) in
  fiveColumns header = true
  ∧ logEntry RefLib.refLib (Civil.DateOf 2025 1 1) "#run" "y" "note" "1" header
    = Done "#run : 2025-01-01 : y : note : 1"
  ∧ parseLogLine RefLib.refLib "#run : 2025-01-01 : y : note : 1" 1 header ∅
    = Done (∅, []).
Proof. repeat split; vm_compute; reflexivity. Qed.

(** ** Counting the entries of a window *)


Lemma hasResult_true (code : string) (entries : Entries) (name : string) (day : Z) :
  hasResult code entries name day = true
  ↔ ∃ o, entries !! (day, name) = Some o ∧ Result o = code.
Proof.
  unfold hasResult. destruct (entries !! (day, name)) as [o |].
  - rewrite bool_decide_eq_true. split; [by exists o | by intros (? & [= <-] & ?)].
  - split; [done | by intros (? & ? & ?)].
Qed.





(** ** [Satisfied] *)

Lemma existsb_true {A} (f : A → bool) (l : list A) :
  existsb f l = true ↔ ∃ x, x ∈ l ∧ f x = true.
Proof.
  rewrite existsb_exists. split; intros (x & Hx & Hf); exists x;
    (split; [by apply list_elem_of_In | done]).
Qed.




(** The rule of section 4.1 on the three tables of the repository's
    tests: it gives the expected result on seventeen of the twenty
    cases.  The three others are the daily habit with a success on the
    day, which the test expects not to be satisfied ("should always
    fail"), and two days with one success in their evaluation window
    and one after it, for a target of two, which the tests expect to be
    satisfied. *)
Lemma Satisfied_on_the_tests :
  filter (fun c => passes Satisfied c = false)
    (TestSatisfied ++ TestSatisfiedGapScenarios ++ TestSatisfiedFutureDataBug)
  = [ {| caseDate := Civil.DateOf 2025 3 24;
         caseHabit := habitOf "Daily Walk" 1 1 Civil.zero;
         caseEntries := entriesOf [entry 2025 3 24 "Daily Walk" "y"];
         caseWant := false |};
      {| caseDate := Civil.DateOf 2025 3 26;
         caseHabit := habitOf "Bike 10k" 2 7 Civil.zero;
         caseEntries := entriesOf [entry 2025 3 25 "Bike 10k" "y";
                                   entry 2025 3 28 "Bike 10k" "y"];
         caseWant := true |};
      {| caseDate := Civil.DateOf 2025 8 25;
         caseHabit := habitOf "Astro" 2 7 (Civil.DateOf 2025 8 20);
         caseEntries := entriesOf [entry 2025 8 24 "Astro" "y"; entry 2025 8 25 "Astro" "n";
                                   entry 2025 8 26 "Astro" "y"];
         caseWant := true |} ].
Proof. vm_compute. reflexivity. Qed.




(** ** [Skipified] *)

Lemma Skipified_passes_the_tests : forallb (passes Skipified) TestSkipified = true.
Proof. vm_compute. reflexivity. Qed.

(** C5. [Skipified] holds exactly when the interval is greater than 1
    and the habit has a skip dated in the evaluation window
    [[max(d - interval + 1, firstRecord), d]]; with interval 1 it never
    holds. *)
Theorem Skipified_window (d : Civil.Date) (habit : Habit) (entries : Entries) :
  (Skipified d habit entries = true
   ↔ 1 < Interval habit
     ∧ ∃ day o, windowStart d habit ≤ day ≤ d
         ∧ entries !! (day, Name habit) = Some o ∧ Result o = "s")
  ∧ (Interval habit = 1 → Skipified d habit entries = false).
Proof.
  unfold Skipified. split.
  - rewrite andb_true_iff, Z.ltb_lt, existsb_true. split.
    + intros [Hi (day & Hday & Hs)]. split; [done |].
      apply elem_of_daysUp in Hday. apply hasResult_true in Hs as (o & Ho & Hr).
      by exists day, o.
    + intros [Hi (day & o & Hday & Ho & Hr)]. split; [done |].
      exists day. split; [by apply elem_of_daysUp |].
      apply hasResult_true. by exists o.
  - intros ->. done.
Qed.

Lemma Skipified_window_witness :
  Skipified (Civil.DateOf 2025 3 15) (habitOf "Daily" 1 1 Civil.zero)
    (entriesOf [entry 2025 3 14 "Daily" "s"]) = false.
Proof.
  apply (proj2 (Skipified_window (Civil.DateOf 2025 3 15) (habitOf "Daily" 1 1 Civil.zero)
                  (entriesOf [entry 2025 3 14 "Daily" "s"]))).
  reflexivity.
Defined.

(** ** [Score] *)

Lemma Score_passes_the_tests :
  Forall (fun c => Score (scoreDate c) (scoreHabits c) (scoreEntries c) = scoreExpected c)
         (TestScore (Civil.DateOf 2025 9 1) :: TestScoreComplex).
Proof. repeat constructor. Qed.







(** ** [BuildStats] *)




(** The habit and the entries of [TestBuildStats] and
    [TestUIBuildStats], on the day of the last entry: the statistics
    are those the tests expect. *)
Lemma BuildStats_on_the_tests :
  Streaks (BuildStats (Civil.DateOf 2025 3 14) statsHabit statsEntries) = 3
  ∧ Breaks (BuildStats (Civil.DateOf 2025 3 14) statsHabit statsEntries) = 1
  ∧ Skips (BuildStats (Civil.DateOf 2025 3 14) statsHabit statsEntries) = 1
  ∧ Total (BuildStats (Civil.DateOf 2025 3 14) statsHabit statsEntries) = 10%Q.
Proof. repeat split; vm_compute; reflexivity. Qed.

(** The tests take today from the clock.  Each day after the last entry
    has no outcome and its state is Break, so that a week later the
    count is 7, where the tests expect 1. *)
Lemma BuildStats_after_the_last_entry :
  Breaks (BuildStats (Civil.DateOf 2025 3 20) statsHabit statsEntries) = 7.
Proof. vm_compute. reflexivity. Qed.

(** ** [BuildGraph] and [BuildGraphsParallel] *)

(** C6. For a count of days back that is not negative the graph has
    [countBack + 1] symbols, the one of each day of
    [[today - countBack, today]] in order, whatever the first record of
    the habit. *)
Theorem BuildGraph_length (today : Civil.Date) (habit : Habit) (entries : Entries)
    (countBack : Z) (colorless : bool) :
  0 ≤ countBack →
  length (BuildGraph today habit entries countBack colorless) = Z.to_nat (countBack + 1)
  ∧ ∀ i, 0 ≤ i ≤ countBack →
      BuildGraph today habit entries countBack colorless !! Z.to_nat i
      = Some {| symbolState := classify (today - countBack + i) habit entries;
                symbolPlain := colorless |}.
Proof.
  intros Hc. unfold BuildGraph, Civil.AddDays, Civil.daysUp. split.
  - rewrite length_fmap, length_seqZ. f_equal. lia.
  - intros i Hi. rewrite list_lookup_fmap.
    rewrite lookup_seqZ_lt by lia. simpl. do 3 f_equal. lia.
Qed.

Lemma BuildGraph_length_witness :
  length (BuildGraph (Civil.DateOf 2025 9 1) (graphHabit (Civil.DateOf 2025 9 1))
            (graphEntries (Civil.DateOf 2025 9 1)) 7 false) = 8%nat.
Proof.
  apply (BuildGraph_length (Civil.DateOf 2025 9 1) (graphHabit (Civil.DateOf 2025 9 1))
           (graphEntries (Civil.DateOf 2025 9 1)) 7 false).
  lia.
Defined.

Lemma collect_snoc (l : list (string * list Symbol)) (r : string * list Symbol) :
  collect (l ++ [r]) = <[r.1 := r.2]> (collect l).
Proof. unfold collect. by rewrite foldl_app. Qed.

Lemma collect_lookup (l : list (string * list Symbol)) (k : string) (v : list Symbol) :
  NoDup (l.*1) → collect l !! k = Some v ↔ (k, v) ∈ l.
Proof.
  induction l as [| r l IH] using rev_ind; intros Hnd.
  - unfold collect. simpl. rewrite lookup_empty. split; [done |].
    intros H. by apply elem_of_nil in H.
  - rewrite fmap_app in Hnd. apply NoDup_app in Hnd as (Hl & Hr & _).
    rewrite collect_snoc, elem_of_app, list_elem_of_singleton.
    destruct (decide (r.1 = k)) as [<- | Hne].
    + rewrite lookup_insert_eq. split.
      * intros [= <-]. right. by destruct r.
      * intros [Hin | E]; [| by rewrite <- E]. exfalso. apply (Hr r.1); [| left].
        apply list_elem_of_fmap. by exists (r.1, v).
    + rewrite lookup_insert_ne by done. rewrite IH by done. split; [by left |].
      intros [Hin | E]; [done |]. destruct Hne. by rewrite <- E.
Qed.

Lemma graphJobs_names (today : Z) (habits : list Habit) (entries : Entries)
    (countBack : Z) (colorless : bool) :
  (graphJobs today habits entries countBack colorless).*1 = Name <$> habits.
Proof. unfold graphJobs. rewrite <- list_fmap_compose. by apply list_fmap_ext. Qed.

(** C7. For habits with names that differ pairwise the mapping has the
    names of the habits as its keys and maps each name to the graph
    [BuildGraph] gives for that habit alone; and it is the same mapping
    in whatever order the graphs of the habits are finished and
    stored. *)
Theorem BuildGraphsParallel_each (today : Civil.Date) (habits : list Habit)
    (entries : Entries) (countBack : Z) (colorless : bool) :
  NoDup (Name <$> habits) →
  dom (BuildGraphsParallel today habits entries countBack colorless)
  = list_to_set (Name <$> habits)
  ∧ (∀ h, h ∈ habits →
       BuildGraphsParallel today habits entries countBack colorless !! Name h
       = Some (BuildGraph today h entries countBack colorless))
  ∧ (∀ finished,
       finished ≡ₚ graphJobs today habits entries countBack colorless →
       collect finished = BuildGraphsParallel today habits entries countBack colorless).
Proof.
  intros Hnd. unfold BuildGraphsParallel.
  set (jobs := graphJobs today habits entries countBack colorless).
  assert (Hjobs : NoDup (jobs.*1)) by (unfold jobs; by rewrite graphJobs_names).
  split; [| split].
  - apply set_eq. intros k. rewrite elem_of_dom, elem_of_list_to_set.
    rewrite <- (graphJobs_names today habits entries countBack colorless). fold jobs.
    rewrite list_elem_of_fmap. split.
    + intros [v Hv]. apply collect_lookup in Hv; [| done]. by exists (k, v).
    + intros ([k' v] & -> & Hin). exists v. by apply collect_lookup.
  - intros h Hh. apply collect_lookup; [done |].
    unfold jobs, graphJobs. apply list_elem_of_fmap. by exists h.
  - intros finished Hperm. apply map_eq. intros k. apply option_eq. intros v.
    rewrite !collect_lookup; [by rewrite Hperm | done | by rewrite Hperm].
Qed.

Lemma BuildGraphsParallel_each_witness :
  BuildGraphsParallel (Civil.DateOf 2025 9 1) (parallelHabits (Civil.DateOf 2025 9 1))
    (parallelEntries (Civil.DateOf 2025 9 1)) 7 false !! "Test2"
  = Some (BuildGraph (Civil.DateOf 2025 9 1)
            (habitOf "Test2" 1 1 (Civil.AddDays (Civil.DateOf 2025 9 1) (-10)))
            (parallelEntries (Civil.DateOf 2025 9 1)) 7 false).
Proof.
  destruct (BuildGraphsParallel_each (Civil.DateOf 2025 9 1)
              (parallelHabits (Civil.DateOf 2025 9 1))
              (parallelEntries (Civil.DateOf 2025 9 1)) 7 false) as (_ & Heach & _).
  - apply (bool_decide_unpack _). vm_compute. exact I.
  - apply (Heach (habitOf "Test2" 1 1 (Civil.AddDays (Civil.DateOf 2025 9 1) (-10)))).
    unfold parallelHabits. right. left.
Defined.

(** The graphs of [TestBuildGraph] and [TestBuildGraphsParallel] have the
    eight symbols the tests expect. *)
Lemma graphs_pass_the_tests :
  length (BuildGraph (Civil.DateOf 2025 9 1) (graphHabit (Civil.DateOf 2025 9 1))
            (graphEntries (Civil.DateOf 2025 9 1)) 7 false) = 8%nat
  ∧ map_Forall (fun _ graph => length graph = 8%nat)
      (BuildGraphsParallel (Civil.DateOf 2025 9 1) (parallelHabits (Civil.DateOf 2025 9 1))
         (parallelEntries (Civil.DateOf 2025 9 1)) 7 false).
Proof.
  split; [reflexivity |]. apply (bool_decide_unpack _). vm_compute. exact I.
Qed.

Lemma FirstRecords_earliest_witness :
  FirstRecord <$> FirstRecords statsEntries (Civil.DateOf 2025 1 1) (Civil.DateOf 2025 12 31)
                    [habitOf "Test" 1 1 Civil.zero; habitOf "Other" 1 1 Civil.zero]
  = [Civil.DateOf 2025 3 10; Civil.zero]
  ∧ length (FirstRecords statsEntries (Civil.DateOf 2025 1 1) (Civil.DateOf 2025 12 31)
              [habitOf "Test" 1 1 Civil.zero; habitOf "Other" 1 1 Civil.zero]) = 2%nat.
Proof.
  split; [vm_compute; reflexivity |].
  apply (proj1 (FirstRecords_earliest statsEntries (Civil.DateOf 2025 1 1)
                  (Civil.DateOf 2025 12 31)
                  [habitOf "Test" 1 1 Civil.zero; habitOf "Other" 1 1 Civil.zero])).
Defined.


(** * Further properties of the storage layer *)

(** ** The record [parseLogLine] stores *)

(** The exact effect of a kept record: the entry of [storedRecord] is
    written, whatever the entries and the line number. *)
Lemma parseLogLine_kept_exact (lib : GoLib) (line : string) (header : Header) :
  nonNegative header = true → kept lib header line = true →
  ∃ k o, storedRecord lib header (Split line " : ") = Some (k, o)
    ∧ ∀ c (e : Entries),
        parseLogLine lib line c header e
        = Done (<[k := o]> e, recordWarnings lib header (Split line " : ") c).
Proof.
  intros Hnn Hkept. unfold kept in Hkept.
  apply andb_true_iff in Hkept as [Hkept Hst].
  apply andb_true_iff in Hkept as [Hrec Hrej]. apply negb_true_iff in Hrej.
  destruct line as [| ch rest]; [done |]. simpl in Hrec.
  apply negb_true_iff in Hrec.
  set (fields := Split (String ch rest) " : ") in *.
  unfold rejected in Hrej.
  apply orb_false_iff in Hrej as [Hrej Hbs]. apply orb_false_iff in Hrej as [Hbd Hbh].
  set (fields' := trimmedStatus header fields).
  assert (Hlen : length fields' = length fields) by apply fieldOfColumn_trimmed_length.
  assert (∃ habit, fields' !! Z.to_nat (at_key header HeaderHabit) = Some habit
                   ∧ index fields' (at_key header HeaderHabit) = Done habit)
    as (habit & Hh1 & Hh2).
  { unfold badHabit in Hbh.
    destruct (column_cases header HeaderHabit fields Hnn)
      as [(Hd & Fd) | [(i & Hd & _ & _ & _ & Fd) | (i & f & Hd & H0 & Hlt & _ & _ & _ & Fd)]];
      rewrite Fd in Hbh; try done.
    unfold at_key. rewrite Hd. simpl. apply Z.ltb_lt in Hlt.
    apply index_in_range; [done | lia]. }
  assert (∃ res, fields' !! Z.to_nat (at_key header HeaderStatus) = Some res
                 ∧ index fields' (at_key header HeaderStatus) = Done res)
    as (res & Hr1 & Hr2).
  { unfold statusReadable in Hst. unfold at_key.
    destruct (header !! HeaderStatus) as [i |] eqn:Hs; simpl.
    - apply Z.ltb_lt in Hst. pose proof (nonNegative_lookup _ _ _ Hnn Hs).
      apply index_in_range; [done | lia].
    - pose proof (Split_nonempty (String ch rest) " : ") as Hne. fold fields in Hne.
      apply index_in_range; [done | lia]. }
  eexists _, _. split.
  { unfold storedRecord. fold fields'. rewrite Hh1, Hr1. reflexivity. }
  intros c e. unfold parseLogLine. rewrite Hrec. fold fields.
  rewrite readDate_eq by done. rewrite bind_Done.
  rewrite habitMissing_eq by done. rewrite readStatus_eq by done.
  assert (match fieldOfColumn header HeaderDate fields with
          | Some f => match ParseDate lib f with
                      | Some cd => inl cd
                      | None => inr (WarnInvalidDate c f)
                      end
          | None => inl Civil.zero
          end = inl (storedDate lib header fields)) as ->.
  { unfold badDate in Hbd. unfold storedDate.
    destruct (fieldOfColumn header HeaderDate fields) as [f |]; [| done].
    destruct (ParseDate lib f); [done |]. by rewrite bool_decide_eq_true_2 in Hbd. }
  rewrite bind_Done, Hbh, bind_Done.
  assert (match fieldOfColumn header HeaderStatus fields with
          | Some f =>
              if isResultCode (TrimSpace f)
              then inl (<[Z.to_nat (at_key header HeaderStatus) := TrimSpace f]> fields)
              else inr (WarnInvalidResult (TrimSpace f) c)
          | None => inl fields
          end = inl fields') as ->.
  { unfold badStatus in Hbs. unfold fields', trimmedStatus.
    destruct (fieldOfColumn header HeaderStatus fields) as [f |]; [| done].
    by destruct (isResultCode (TrimSpace f)). }
  rewrite readAmount_eq by done. rewrite bind_Done.
  rewrite readComment_eq by done. rewrite bind_Done.
  rewrite Hh2, Hr2, !bind_Done. unfold recordWarnings. fold fields fields'.
  f_equal. f_equal.
  - f_equal. f_equal.
    destruct (fieldOfColumn header HeaderAmount fields') as [f |]; [| done].
    unfold amountOf. by destruct (bool_decide (f = "")).
  - f_equal.
    destruct (fieldOfColumn header HeaderAmount fields') as [f |]; [| done].
    by destruct (bool_decide (f = "")).
Qed.

(** A record that is not rejected and stops before the status column of
    the header ends the run. *)
Lemma parseLogLine_short_panics (lib : GoLib) (line : string) (header : Header) :
  nonNegative header = true → isRecord line = true →
  rejected lib header (Split line " : ") = false →
  statusReadable header (Split line " : ") = false →
  ∀ c (e : Entries), parseLogLine lib line c header e = Panic.
Proof.
  intros Hnn Hrec Hrej Hst c e.
  destruct line as [| ch rest]; [done |]. simpl in Hrec. apply negb_true_iff in Hrec.
  unfold parseLogLine. rewrite Hrec.
  set (fields := Split (String ch rest) " : ") in *.
  unfold rejected in Hrej.
  apply orb_false_iff in Hrej as [Hrej Hbs]. apply orb_false_iff in Hrej as [Hbd Hbh].
  unfold statusReadable in Hst.
  destruct (header !! HeaderStatus) as [i |] eqn:Hs; [| done].
  apply Z.ltb_ge in Hst.
  rewrite readDate_eq by done. rewrite bind_Done.
  assert (∃ cd, match fieldOfColumn header HeaderDate fields with
                | Some f => match ParseDate lib f with
                            | Some cd => inl cd
                            | None => inr (WarnInvalidDate c f)
                            end
                | None => inl Civil.zero
                end = inl cd) as [cd ->].
  { unfold badDate in Hbd. destruct (fieldOfColumn header HeaderDate fields) as [f |];
      [| by eexists]. destruct (ParseDate lib f); [by eexists |].
    by rewrite bool_decide_eq_true_2 in Hbd. }
  rewrite habitMissing_eq, bind_Done, Hbh by done.
  rewrite readStatus_eq by done.
  assert (Fs : fieldOfColumn header HeaderStatus fields = None).
  { unfold fieldOfColumn. rewrite Hs.
    replace (i <? Z.of_nat (length fields)) with false by (symmetry; by apply Z.ltb_ge).
    by rewrite andb_false_r. }
  rewrite Fs, bind_Done.
  rewrite readAmount_eq, bind_Done, readComment_eq, bind_Done by done.
  assert (index fields (at_key header HeaderStatus) = @Panic string) as Hp.
  { unfold at_key. rewrite Hs. simpl. by apply index_out_of_range. }
  rewrite Hp. by destruct (index fields (at_key header HeaderHabit)).
Qed.

Lemma parseLogLine_not_record (lib : GoLib) (line : string) (c : Z) (header : Header)
    (e : Entries) :
  isRecord line = false → parseLogLine lib line c header e = Done (e, []).
Proof.
  intros Hrec. unfold parseLogLine. destruct line as [| ch rest]; [done |].
  simpl in Hrec. apply negb_false_iff in Hrec. by rewrite Hrec.
Qed.

(** X1. Under a header with positions Go accepts, [parseLogLine] panics
    exactly on the records that pass the checks of date, habit and
    status and stop before the status column of the header; on every
    other line it returns. *)
Theorem parseLogLine_panics_iff (lib : GoLib) (line : string) (c : Z)
    (header : Header) (e : Entries) :
  nonNegative header = true →
  (parseLogLine lib line c header e = Panic
   ↔ isRecord line = true
     ∧ rejected lib header (Split line " : ") = false
     ∧ statusReadable header (Split line " : ") = false).
Proof.
  intros Hnn. split.
  - intros Hp. destruct (isRecord line) eqn:Hrec;
      [| by rewrite parseLogLine_not_record in Hp].
    destruct (rejected lib header (Split line " : ")) eqn:Hrej.
    { destruct (parseLogLine_rejected lib line c header e Hnn Hrec Hrej) as (ws & _ & Hd).
      by rewrite Hd in Hp. }
    destruct (statusReadable header (Split line " : ")) eqn:Hst; [| done].
    destruct (parseLogLine_kept_exact lib line header Hnn) as (k & o & _ & Hd).
    { unfold kept. by rewrite Hrec, Hrej, Hst. }
    by rewrite Hd in Hp.
  - intros (Hrec & Hrej & Hst). by apply parseLogLine_short_panics.
Qed.

Lemma parseLogLine_panics_iff_witness :
  parseLogLine RefLib.refLib "2025-03-01 : Run" 4 DefaultHeader ∅ = Panic.
Proof.
  apply (parseLogLine_panics_iff RefLib.refLib "2025-03-01 : Run" 4 DefaultHeader ∅);
    vm_compute; done.
Defined.

(** X2. One record that stops before the status column ends the whole
    load, whatever the lines before and after it. *)
Theorem parseLines_aborts (lib : GoLib) (line : string) (header : Header)
    (before after : list string) (c : Z) (e : Entries) :
  nonNegative header = true → isRecord line = true →
  rejected lib header (Split line " : ") = false →
  statusReadable header (Split line " : ") = false →
  parseLines lib (before ++ line :: after) c header e = Panic.
Proof.
  intros Hnn Hrec Hrej Hst. revert c e.
  induction before as [| b before IH]; intros c e; simpl.
  - by rewrite (parseLogLine_short_panics lib line header Hnn Hrec Hrej Hst).
  - destruct (parseLogLine lib b (c + 1) header e) as [[e1 w1] |]; [| done].
    rewrite bind_Done. simpl. by rewrite IH.
Qed.

Lemma parseLines_aborts_witness :
  parseLines RefLib.refLib
    (["2025-03-01 : Walk : y : : "] ++ "2025-03-02 : Run" :: ["2025-03-03 : Walk : y : : "])
    0 DefaultHeader ∅ = Panic.
Proof.
  apply (parseLines_aborts RefLib.refLib "2025-03-02 : Run" DefaultHeader);
    vm_compute; done.
Defined.

(** X3. A kept record is stored as [storedRecord] says, with the
    warnings of [recordWarnings], whatever the entries before it and the
    line number: its date is the one of the date field or the zero date,
    its habit and its result are the fields at the positions of the
    header in the slice with its status trimmed. *)
Theorem parseLogLine_stores (lib : GoLib) (line : string) (header : Header) :
  nonNegative header = true → kept lib header line = true →
  ∃ k o, storedRecord lib header (Split line " : ") = Some (k, o)
    ∧ ∀ c (e : Entries),
        parseLogLine lib line c header e
        = Done (<[k := o]> e, recordWarnings lib header (Split line " : ") c).
Proof. apply parseLogLine_kept_exact. Qed.

Lemma parseLogLine_stores_witness :
  ∃ k o, storedRecord RefLib.refLib DefaultHeader
           (Split "2025-03-01 : Walk :  y : sunny : 3.5 : more" " : ") = Some (k, o)
    ∧ ∀ c (e : Entries),
        parseLogLine RefLib.refLib "2025-03-01 : Walk :  y : sunny : 3.5 : more" c
          DefaultHeader e
        = Done (<[k := o]> e,
                recordWarnings RefLib.refLib DefaultHeader
                  (Split "2025-03-01 : Walk :  y : sunny : 3.5 : more" " : ") c).
Proof.
  apply (parseLogLine_stores RefLib.refLib "2025-03-01 : Walk :  y : sunny : 3.5 : more"
           DefaultHeader); vm_compute; reflexivity.
Defined.

(** X4. Under a header without a status column no result is checked:
    a record that has its date and habit accepted is stored with the
    first field of the line as its result. *)
Theorem header_without_status (lib : GoLib) (line : string) (header : Header) :
  nonNegative header = true → header !! HeaderStatus = None →
  isRecord line = true → rejected lib header (Split line " : ") = false →
  ∃ first k o,
    Split line " : " !! 0%nat = Some first ∧ Result o = first
    ∧ ∀ c (e : Entries), ∃ ws, parseLogLine lib line c header e = Done (<[k := o]> e, ws).
Proof.
  intros Hnn Hs Hrec Hrej.
  destruct (parseLogLine_kept_exact lib line header Hnn) as (k & o & Hst & Hd).
  { unfold kept, statusReadable. by rewrite Hrec, Hrej, Hs. }
  unfold storedRecord, trimmedStatus, fieldOfColumn, at_key in Hst.
  rewrite Hs in Hst. simpl in Hst.
  destruct (Split line " : " !! Z.to_nat (default 0 (header !! HeaderHabit)))
    as [habit |]; [| done]. simpl in Hst.
  change (Z.to_nat 0) with 0%nat in Hst.
  destruct (Split line " : " !! 0%nat) as [first |] eqn:Hf; [| done].
  simpl in Hst. injection Hst as <- <-.
  eexists first, _, _. split; [done |]. split; [| intros c e; eexists; apply Hd].
  reflexivity.
Qed.

Lemma header_without_status_witness :
  ∃ first k o,
    Split "2025-03-01 : Walk : q" " : " !! 0%nat = Some first ∧ Result o = first
    ∧ ∀ c (e : Entries), ∃ ws,
        parseLogLine RefLib.refLib "2025-03-01 : Walk : q" c
          (<[HeaderDate := 0]> (<[HeaderHabit := 1]> ∅)) e = Done (<[k := o]> e, ws).
Proof.
  apply (header_without_status RefLib.refLib "2025-03-01 : Walk : q"
           (<[HeaderDate := 0]> (<[HeaderHabit := 1]> ∅))); vm_compute; reflexivity.
Defined.

(** X5. A record without a date field (the header has no date column,
    or the line stops before it) is stored under the zero date: all
    such records of a habit share one key. *)
Theorem record_without_date (lib : GoLib) (line : string) (header : Header) :
  nonNegative header = true → kept lib header line = true →
  fieldOfColumn header HeaderDate (Split line " : ") = None →
  ∃ habit o,
    ∀ c (e : Entries), ∃ ws,
      parseLogLine lib line c header e = Done (<[(Civil.zero, habit) := o]> e, ws).
Proof.
  intros Hnn Hkept Hd.
  destruct (parseLogLine_kept_exact lib line header Hnn Hkept) as ([day habit] & o & Hst & He).
  unfold storedRecord, storedDate in Hst. rewrite Hd in Hst.
  destruct (trimmedStatus header (Split line " : ") !! Z.to_nat (at_key header HeaderHabit));
    [| done]. simpl in Hst.
  destruct (trimmedStatus header (Split line " : ") !! Z.to_nat (at_key header HeaderStatus));
    [| done]. simpl in Hst. injection Hst as <- <- <-.
  eexists _, _. intros c e. eexists. apply He.
Qed.

Lemma record_without_date_witness :
  ∃ habit o,
    ∀ c (e : Entries), ∃ ws,
      parseLogLine RefLib.refLib "Walk : y" c
        (<[HeaderHabit := 0]> (<[HeaderStatus := 1]> ∅)) e
      = Done (<[(Civil.zero, habit) := o]> e, ws).
Proof.
  apply (record_without_date RefLib.refLib "Walk : y"
           (<[HeaderHabit := 0]> (<[HeaderStatus := 1]> ∅))); vm_compute; reflexivity.
Defined.

(** ** The loop of [LoadLog] *)

(** What [parseLogLine] does with a line: it panics, it leaves the
    entries as they are, or it stores the record of a kept line. *)
Lemma parseLogLine_outcome (lib : GoLib) (line : string) (c : Z) (header : Header)
    (e : Entries) :
  nonNegative header = true →
  parseLogLine lib line c header e = Panic
  ∨ (kept lib header line = false
     ∧ ∃ ws, parseLogLine lib line c header e = Done (e, ws))
  ∨ (kept lib header line = true
     ∧ ∃ k o, storedRecord lib header (Split line " : ") = Some (k, o)
        ∧ parseLogLine lib line c header e
          = Done (<[k := o]> e, recordWarnings lib header (Split line " : ") c)).
Proof.
  intros Hnn. unfold kept.
  destruct (isRecord line) eqn:Hrec.
  2: { right. left. split; [done |]. eexists. by apply parseLogLine_not_record. }
  destruct (rejected lib header (Split line " : ")) eqn:Hrej.
  { right. left. split; [done |].
    destruct (parseLogLine_rejected lib line c header e Hnn Hrec Hrej) as (ws & _ & Hd).
    by exists ws. }
  destruct (statusReadable header (Split line " : ")) eqn:Hst.
  2: { left. by apply parseLogLine_short_panics. }
  right. right. split; [done |].
  destruct (parseLogLine_kept_exact lib line header Hnn) as (k & o & Hs & Hd).
  { unfold kept. by rewrite Hrec, Hrej, Hst. }
  by exists k, o.
Qed.

Lemma parseLines_cons_Done (lib : GoLib) (line : string) (rest : list string) (c : Z)
    (header : Header) (e e' : Entries) (ws : list Warning) :
  parseLines lib (line :: rest) c header e = Done (e', ws) →
  ∃ e1 w1 w2, parseLogLine lib line (c + 1) header e = Done (e1, w1)
    ∧ parseLines lib rest (c + 1) header e1 = Done (e', w2) ∧ ws = w1 ++ w2.
Proof.
  simpl. destruct (parseLogLine lib line (c + 1) header e) as [[e1 w1] |]; [| done].
  rewrite bind_Done. simpl.
  destruct (parseLines lib rest (c + 1) header e1) as [[e2 w2] |] eqn:H2; [| done].
  rewrite bind_Done. simpl. intros [= <- <-]. by exists e1, w1, w2.
Qed.

Lemma parseLines_entries (lib : GoLib) (header : Header) (lines : list string) (c : Z)
    (e e' : Entries) (ws : list Warning) :
  nonNegative header = true →
  parseLines lib lines c header e = Done (e', ws) →
  e' = storeAll e (omap (recordOf lib header) lines).
Proof.
  intros Hnn. revert c e ws.
  induction lines as [| line rest IH]; intros c e ws H.
  { by injection H as <- <-. }
  apply parseLines_cons_Done in H as (e1 & w1 & w2 & H1 & H2 & _).
  apply IH in H2 as ->. simpl. unfold recordOf at 2.
  destruct (parseLogLine_outcome lib line (c + 1) header e Hnn)
    as [Hp | [(Hk & ws' & Hd) | (Hk & k & o & Hs & Hd)]].
  - by rewrite Hp in H1.
  - rewrite Hd in H1. injection H1 as <- <-. by rewrite Hk.
  - rewrite Hd in H1. injection H1 as <- <-. by rewrite Hk, Hs.
Qed.

Lemma LoadLog_eq (lib : GoLib) (lines : list string) :
  LoadLog lib lines
  = (r ← parseLines lib (recordLines lines) 0 (loadHeader lines) ∅;
     Done ({| LogEntries := r.1; LogHeader := loadHeader lines |}, r.2)).
Proof.
  unfold LoadLog, recordLines, loadHeader.
  destruct (ParseHeader (hd "" lines)) as [header |] eqn:Hh; [done |].
  destruct lines as [| line rest]; [done |]. simpl.
  change (0 + 1) with 1.
  destruct (parseLogLine lib line 1 DefaultHeader ∅) as [[e1 w1] |]; [| done].
  rewrite !bind_Done. simpl.
  by destruct (parseLines lib rest 1 DefaultHeader e1) as [[e2 w2] |].
Qed.

Lemma loadHeader_nonNegative (lines : list string) : nonNegative (loadHeader lines) = true.
Proof.
  unfold loadHeader.
  destruct (ParseHeader (hd "" lines)) as [header |] eqn:Hh; simpl.
  - by eapply ParseHeader_nonNegative.
  - apply DefaultHeader_nonNegative.
Qed.

Lemma LoadLog_Done (lib : GoLib) (lines : list string) (log : Log) (ws : list Warning) :
  LoadLog lib lines = Done (log, ws) →
  LogHeader log = loadHeader lines
  ∧ parseLines lib (recordLines lines) 0 (loadHeader lines) ∅ = Done (LogEntries log, ws).
Proof.
  rewrite LoadLog_eq.
  destruct (parseLines lib (recordLines lines) 0 (loadHeader lines) ∅) as [[e w] |];
    [| done].
  rewrite bind_Done. simpl. by intros [= <- <-].
Qed.

(** X6. The log [LoadLog] returns holds the records of the kept lines
    and nothing else: its entries are what storing the records of the
    kept lines one after the other, in the order of the file, leaves, under the
    header of the first line or the default header; the skipped lines,
    the comments and the blank lines leave no trace. *)
Theorem LoadLog_entries (lib : GoLib) (lines : list string) (log : Log)
    (ws : list Warning) :
  LoadLog lib lines = Done (log, ws) →
  LogHeader log = loadHeader lines
  ∧ LogEntries log
    = storeAll ∅ (omap (recordOf lib (loadHeader lines)) (recordLines lines)).
Proof.
  intros H. apply LoadLog_Done in H as [Hh Hp]. split; [done |].
  eapply parseLines_entries; [apply loadHeader_nonNegative | apply Hp].
Qed.

Lemma LoadLog_entries_witness :
  ∃ log,
    LoadLog RefLib.refLib
      ["Habit : Status : Date"; "Walk : y : 2025-03-01"; "# a comment";
       "Run : maybe : 2025-03-01"; ""; "Walk : n : 2025-03-01"]
    = Done (log, [WarnInvalidResult "maybe" 3])
    ∧ LogEntries log
      = storeAll ∅ [((Civil.DateOf 2025 3 1, "Walk"),
                     {| Result := "y"; Amount := 0; Comment := "" |});
                    ((Civil.DateOf 2025 3 1, "Walk"),
                     {| Result := "n"; Amount := 0; Comment := "" |})].
Proof.
  eexists. split; [vm_compute; reflexivity |].
  apply (LoadLog_entries RefLib.refLib
           ["Habit : Status : Date"; "Walk : y : 2025-03-01"; "# a comment";
            "Run : maybe : 2025-03-01"; ""; "Walk : n : 2025-03-01"]
           _ [WarnInvalidResult "maybe" 3]).
  vm_compute. reflexivity.
Defined.

Lemma ParseHeader_defaultHeaderLine : ParseHeader defaultHeaderLine = Some DefaultHeader.
Proof. vm_compute. reflexivity. Qed.

(** X7. A log without a header line is read as the same log with the
    header line of the default header put before it: the same entries,
    the same header and the same warnings, line numbers included, since
    a header line is not counted. *)
Theorem LoadLog_header_line (lib : GoLib) (lines : list string) :
  ParseHeader (hd "" lines) = None →
  LoadLog lib (defaultHeaderLine :: lines) = LoadLog lib lines.
Proof.
  intros Hh. rewrite !LoadLog_eq. unfold recordLines, loadHeader.
  change (hd "" (defaultHeaderLine :: lines)) with defaultHeaderLine.
  by rewrite ParseHeader_defaultHeaderLine, Hh.
Qed.

Lemma LoadLog_header_line_witness :
  LoadLog RefLib.refLib
    (defaultHeaderLine :: ["2025-03-01 : Walk : y : sunny : 2"; "2025-03-02 : Walk : q"])
  = LoadLog RefLib.refLib ["2025-03-01 : Walk : y : sunny : 2"; "2025-03-02 : Walk : q"].
Proof.
  apply (LoadLog_header_line RefLib.refLib
           ["2025-03-01 : Walk : y : sunny : 2"; "2025-03-02 : Walk : q"]).
  vm_compute. reflexivity.
Defined.

(** What the checks of [parseLogLine] leave in a stored record. *)
Lemma recordOf_checked (lib : GoLib) (header : Header) (line : string)
    (k : DailyHabit) (o : Outcome) :
  nonNegative header = true → recordOf lib header line = Some (k, o) →
  TrimSpace k.2 ≠ ""
  ∧ (is_Some (header !! HeaderStatus) → isResultCode (Result o) = true).
Proof.
  intros Hnn. unfold recordOf. destruct (kept lib header line) eqn:Hk; [| done].
  unfold kept in Hk. apply andb_true_iff in Hk as [Hk Hst].
  apply andb_true_iff in Hk as [_ Hrej]. apply negb_true_iff in Hrej.
  unfold rejected in Hrej. apply orb_false_iff in Hrej as [Hrej Hbs].
  apply orb_false_iff in Hrej as [_ Hbh].
  set (fields := Split line " : ") in *.
  unfold badHabit in Hbh.
  destruct (column_cases header HeaderHabit fields Hnn)
    as [[_ Hn] | [(i & _ & _ & _ & _ & Hn)
                 | (ih & fh & Hih & Hih0 & Hihn & _ & Hfh & _ & Hfc)]];
    try (by rewrite Hn in Hbh).
  rewrite Hfc in Hbh. apply bool_decide_eq_false in Hbh.
  unfold storedRecord, at_key. rewrite Hih. simpl.
  unfold statusReadable in Hst. unfold badStatus in Hbs. unfold trimmedStatus, at_key.
  destruct (column_cases header HeaderStatus fields Hnn)
    as [[Hs Hn] | [(i & Hs & _ & Hlt & _ & Hn)
                  | (js & fs & Hjs & Hjs0 & Hjsn & _ & Hfs & _ & Hsc)]].
  - rewrite Hn, Hs. simpl. rewrite Hfh. simpl.
    change (Z.to_nat 0) with 0%nat.
    destruct (fields !! 0%nat); [| done]. simpl. intros [= <- <-].
    split; [done |]. by intros [? ?].
  - rewrite Hs in Hst. by rewrite Hlt in Hst.
  - rewrite Hsc, Hjs. simpl. rewrite Hsc in Hbs. apply negb_false_iff in Hbs.
    apply Z.ltb_lt in Hjsn, Hihn.
    rewrite (list_lookup_insert_eq fields (Z.to_nat js)) by lia. simpl.
    destruct (decide (ih = js)) as [-> | Hne].
    + rewrite (list_lookup_insert_eq fields (Z.to_nat js)) by lia. simpl.
      intros [= <- <-]. simpl. split; [| done].
      rewrite (isResultCode_trimmed _ Hbs). congruence.
    + rewrite list_lookup_insert_ne by lia. rewrite Hfh. simpl.
      intros [= <- <-]. by split.
Qed.

Lemma storeAll_Forall (P : DailyHabit → Outcome → Prop)
    (records : list (DailyHabit * Outcome)) (e : Entries) :
  map_Forall P e → Forall (fun r => P r.1 r.2) records →
  map_Forall P (storeAll e records).
Proof.
  revert e. induction records as [| r records IH]; intros e He Hr; [done |].
  inversion Hr as [| ? ? Hr1 Hr2]; subst.
  apply (IH (<[r.1 := r.2]> e)); [| done]. by apply map_Forall_insert_2.
Qed.

(** X8. Whatever the file holds, every entry of the log [LoadLog]
    returns has a habit name that is not blank, and, when the header has
    a status column, a result that is one of y, n and s. *)
Theorem LoadLog_checked (lib : GoLib) (lines : list string) (log : Log)
    (ws : list Warning) :
  LoadLog lib lines = Done (log, ws) →
  ∀ day habit o, LogEntries log !! (day, habit) = Some o →
    TrimSpace habit ≠ ""
    ∧ (is_Some (LogHeader log !! HeaderStatus) → isResultCode (Result o) = true).
Proof.
  intros H. apply LoadLog_Done in H as [Hh Hp].
  pose proof (loadHeader_nonNegative lines) as Hnn.
  apply (parseLines_entries _ _ _ _ _ _ _ Hnn) in Hp. rewrite Hh, Hp.
  intros day habit o.
  apply (storeAll_Forall
           (fun k o => TrimSpace k.2 ≠ ""
              ∧ (is_Some (loadHeader lines !! HeaderStatus)
                 → isResultCode (Result o) = true))
           _ ∅ (map_Forall_empty _)).
  apply Forall_forall. intros [k o'] Hin.
  apply list_elem_of_omap in Hin as (line & _ & Hr).
  by apply (recordOf_checked lib _ line).
Qed.

Lemma LoadLog_checked_witness :
  ∃ log,
    LoadLog RefLib.refLib
      ["2025-03-01 : Walk :  y  : sunny : 2"; "2025-03-02 :    : y"; "2025-03-02 : Walk : q"]
    = Done (log, [WarnFieldCount 5 3 2; WarnEmptyHabit 2;
                  WarnFieldCount 5 3 3; WarnInvalidResult "q" 3])
    ∧ ∀ day habit o, LogEntries log !! (day, habit) = Some o →
        TrimSpace habit ≠ ""
        ∧ (is_Some (LogHeader log !! HeaderStatus) → isResultCode (Result o) = true).
Proof.
  eexists. split; [vm_compute; reflexivity |].
  apply (LoadLog_checked RefLib.refLib
           ["2025-03-01 : Walk :  y  : sunny : 2"; "2025-03-02 :    : y";
            "2025-03-02 : Walk : q"]
           _ [WarnFieldCount 5 3 2; WarnEmptyHabit 2;
              WarnFieldCount 5 3 3; WarnInvalidResult "q" 3]).
  vm_compute. reflexivity.
Defined.

(** The lines before a part of the file do not change what that part
    does to the entries. *)
Lemma parseLines_middle (lib : GoLib) (header : Header) (part part' : list string) :
  (∀ c (e : Entries),
     fst <$> parseLines lib part c header e = fst <$> parseLines lib part' c header e) →
  ∀ before c (e : Entries),
    fst <$> parseLines lib (before ++ part) c header e
    = fst <$> parseLines lib (before ++ part') c header e.
Proof.
  intros Hpart before. induction before as [| b before IH]; intros c e; simpl; [done |].
  destruct (parseLogLine lib b (c + 1) header e) as [[e1 w1] |]; [| done].
  rewrite !bind_Done. simpl. rewrite !fmap_fst_bind. apply IH.
Qed.

Lemma recordOf_stores (lib : GoLib) (header : Header) (line : string)
    (k : DailyHabit) (o : Outcome) :
  nonNegative header = true → recordOf lib header line = Some (k, o) →
  ∀ c (e : Entries), ∃ ws, parseLogLine lib line c header e = Done (<[k := o]> e, ws).
Proof.
  intros Hnn. unfold recordOf. destruct (kept lib header line) eqn:Hk; [| done].
  destruct (parseLogLine_kept_exact lib line header Hnn Hk) as (k' & o' & -> & Hd).
  intros [= <- <-] c e. eexists. apply Hd.
Qed.

(** X9. Of two records for the same day and habit that follow each
    other the later one wins: the entries are those of the file
    without the earlier line. *)
Theorem later_record_wins (lib : GoLib) (header : Header) (line1 line2 : string)
    (before after : list string) (c : Z) (e : Entries) (k : DailyHabit)
    (o1 o2 : Outcome) :
  nonNegative header = true →
  recordOf lib header line1 = Some (k, o1) → recordOf lib header line2 = Some (k, o2) →
  fst <$> parseLines lib (before ++ line1 :: line2 :: after) c header e
  = fst <$> parseLines lib (before ++ line2 :: after) c header e.
Proof.
  intros Hnn H1 H2. apply parseLines_middle. clear c e. intros c e. simpl.
  destruct (recordOf_stores lib header line1 k o1 Hnn H1 (c + 1) e) as [w1 ->].
  rewrite bind_Done. simpl.
  destruct (recordOf_stores lib header line2 k o2 Hnn H2 (c + 1 + 1) (<[k := o1]> e))
    as [w2 ->].
  destruct (recordOf_stores lib header line2 k o2 Hnn H2 (c + 1) e) as [w2' ->].
  rewrite !bind_Done. simpl. rewrite !fmap_fst_bind, insert_insert_eq.
  by apply parseLines_any_count.
Qed.

Lemma later_record_wins_witness :
  fst <$> parseLines RefLib.refLib
            (["2025-03-01 : Run : n"]
             ++ "2025-03-02 : Walk : n : tired : " :: "2025-03-02 : Walk : y : fine : 3"
                :: ["2025-03-03 : Walk : y"])
            0 DefaultHeader ∅
  = fst <$> parseLines RefLib.refLib
              (["2025-03-01 : Run : n"]
               ++ "2025-03-02 : Walk : y : fine : 3" :: ["2025-03-03 : Walk : y"])
              0 DefaultHeader ∅.
Proof.
  apply (later_record_wins RefLib.refLib DefaultHeader
           "2025-03-02 : Walk : n : tired : " "2025-03-02 : Walk : y : fine : 3"
           ["2025-03-01 : Run : n"] ["2025-03-03 : Walk : y"] 0 ∅
           (Civil.DateOf 2025 3 2, "Walk")
           {| Result := "n"; Amount := 0; Comment := "tired" |}
           {| Result := "y"; Amount := 3; Comment := "fine" |});
    vm_compute; reflexivity.
Defined.

(** X10. Two records for different days or habits that follow each
    other can change places: the entries are the same. *)
Theorem records_commute (lib : GoLib) (header : Header) (line1 line2 : string)
    (before after : list string) (c : Z) (e : Entries) (k1 k2 : DailyHabit)
    (o1 o2 : Outcome) :
  nonNegative header = true →
  recordOf lib header line1 = Some (k1, o1) → recordOf lib header line2 = Some (k2, o2) →
  k1 ≠ k2 →
  fst <$> parseLines lib (before ++ line1 :: line2 :: after) c header e
  = fst <$> parseLines lib (before ++ line2 :: line1 :: after) c header e.
Proof.
  intros Hnn H1 H2 Hne. apply parseLines_middle. clear c e. intros c e. simpl.
  destruct (recordOf_stores lib header line1 k1 o1 Hnn H1 (c + 1) e) as [w1 ->].
  destruct (recordOf_stores lib header line2 k2 o2 Hnn H2 (c + 1) e) as [w2 ->].
  rewrite !bind_Done. simpl.
  destruct (recordOf_stores lib header line2 k2 o2 Hnn H2 (c + 1 + 1) (<[k1 := o1]> e))
    as [w2' ->].
  destruct (recordOf_stores lib header line1 k1 o1 Hnn H1 (c + 1 + 1) (<[k2 := o2]> e))
    as [w1' ->].
  rewrite !bind_Done. simpl. rewrite !fmap_fst_bind.
  by rewrite (insert_insert_ne e k2 k1).
Qed.

Lemma records_commute_witness :
  fst <$> parseLines RefLib.refLib
            ([] ++ "2025-03-02 : Walk : n : tired : " :: "2025-03-02 : Run : y : fine : 3" :: [])
            0 DefaultHeader ∅
  = fst <$> parseLines RefLib.refLib
              ([] ++ "2025-03-02 : Run : y : fine : 3" :: "2025-03-02 : Walk : n : tired : " :: [])
              0 DefaultHeader ∅.
Proof.
  apply (records_commute RefLib.refLib DefaultHeader
           "2025-03-02 : Walk : n : tired : " "2025-03-02 : Run : y : fine : 3"
           [] [] 0 ∅
           (Civil.DateOf 2025 3 2, "Walk") (Civil.DateOf 2025 3 2, "Run")
           {| Result := "n"; Amount := 0; Comment := "tired" |}
           {| Result := "y"; Amount := 3; Comment := "fine" |});
    [vm_compute; reflexivity .. |].
  apply (bool_decide_unpack _). vm_compute. reflexivity.
Defined.

(** ** The warnings of a load *)

Lemma readDate_warning (lib : GoLib) (header : Header) (result : list string) (c : Z)
    (w : Warning) :
  readDate lib header result c = Done (inr w) → warningLine w = c.
Proof.
  unfold readDate. destruct (header !! HeaderDate) as [i |]; [| done].
  destruct (i <? Z.of_nat (length result)); [| done].
  destruct (index result i) as [f |]; [| done]. rewrite bind_Done.
  destruct (ParseDate lib f); [done |]. by intros [= <-].
Qed.

Lemma readStatus_warning (header : Header) (result : list string) (c : Z) (w : Warning) :
  readStatus header result c = Done (inr w) → warningLine w = c.
Proof.
  unfold readStatus. destruct (header !! HeaderStatus) as [i |]; [| done].
  destruct (i <? Z.of_nat (length result)); [| done].
  destruct (index result i) as [f |]; [| done]. rewrite bind_Done.
  destruct (assign result i (TrimSpace f)) as [r |]; [| done]. rewrite bind_Done.
  destruct (isResultCode (TrimSpace f)); [done |]. by intros [= <-].
Qed.

Lemma readAmount_warnings (lib : GoLib) (header : Header) (result : list string) (c : Z)
    (a : Q * list Warning) :
  readAmount lib header result c = Done a → Forall (fun w => warningLine w = c) a.2.
Proof.
  unfold readAmount.
  destruct (header !! HeaderAmount) as [i |]; [| by intros [= <-]].
  destruct (i <? Z.of_nat (length result)); [| by intros [= <-]].
  destruct (index result i) as [f |]; [| done]. rewrite bind_Done.
  case_bool_decide; [by intros [= <-] |].
  destruct (ParseFloat lib f) as [v [|]]; intros [= <-]; simpl; by repeat constructor.
Qed.

Lemma parseLogLine_warning_lines (lib : GoLib) (line : string) (c : Z) (header : Header)
    (e e' : Entries) (ws : list Warning) :
  parseLogLine lib line c header e = Done (e', ws) →
  Forall (fun w => warningLine w = c) ws.
Proof.
  unfold parseLogLine. destruct line as [| ch rest]; [by intros [= <- <-] |].
  destruct (bool_decide (ch = "#"%char)); [by intros [= <- <-] |].
  cbv zeta. set (fields := Split (String ch rest) " : ").
  set (w0 := if bool_decide _ then [] else _).
  assert (Hw0 : Forall (fun w => warningLine w = c) w0).
  { subst w0. case_bool_decide; by repeat constructor. }
  destruct (readDate lib header fields c) as [[cd | w] |] eqn:Hd; [| | done];
    rewrite bind_Done.
  2: { intros [= <- <-]. apply Forall_app. split; [done |].
       apply readDate_warning in Hd. by repeat constructor. }
  destruct (habitMissing header fields) as [[|] |]; [| | done]; rewrite bind_Done.
  { intros [= <- <-]. apply Forall_app. split; [done |]. by repeat constructor. }
  destruct (readStatus header fields c) as [[fields' | w] |] eqn:Hs; [| | done];
    rewrite bind_Done.
  2: { intros [= <- <-]. apply Forall_app. split; [done |].
       apply readStatus_warning in Hs. by repeat constructor. }
  destruct (readAmount lib header fields' c) as [a |] eqn:Ha; [| done]. rewrite bind_Done.
  destruct (readComment header fields') as [comment |]; [| done]. rewrite bind_Done.
  destruct (index fields' (at_key header HeaderHabit)) as [habit |]; [| done].
  rewrite bind_Done.
  destruct (index fields' (at_key header HeaderStatus)) as [res |]; [| done].
  rewrite bind_Done. intros [= <- <-]. apply Forall_app. split; [done |].
  by apply readAmount_warnings in Ha.
Qed.

Lemma parseLines_warning_lines (lib : GoLib) (header : Header) (lines : list string)
    (c : Z) (e e' : Entries) (ws : list Warning) :
  parseLines lib lines c header e = Done (e', ws) →
  Forall (fun w => c < warningLine w ≤ c + Z.of_nat (length lines)) ws
  ∧ StronglySorted (fun w w' => warningLine w ≤ warningLine w') ws.
Proof.
  revert c e ws. induction lines as [| line rest IH]; intros c e ws H.
  { injection H as <- <-. split; constructor. }
  apply parseLines_cons_Done in H as (e1 & w1 & w2 & H1 & H2 & ->).
  apply parseLogLine_warning_lines in H1. apply IH in H2 as [H2 H2s].
  rewrite Forall_forall in H1, H2. split.
  - apply Forall_app. split; apply Forall_forall; intros w Hw.
    + rewrite (H1 w Hw). simpl length. lia.
    + specialize (H2 w Hw). simpl length. lia.
  - apply StronglySorted_app_2; [| | done].
    + intros x1 x2 Hx1 Hx2. rewrite (H1 x1 Hx1). specialize (H2 x2 Hx2). lia.
    + clear H2 H2s. induction w1 as [| w w1 IHw]; constructor.
      * apply IHw. intros x Hx. apply H1. by right.
      * apply Forall_forall. intros x Hx.
        rewrite (H1 w), (H1 x); [lia | by right | by left].
Qed.

(** X11. The warnings of a load come in the order of the lines they
    name, and the line numbers they print count the records: they lie
    between 1 and the number of lines read as records, so that under a
    header line a warning about the n-th line of the file names the line
    n - 1. *)
Theorem LoadLog_warning_lines (lib : GoLib) (lines : list string) (log : Log)
    (ws : list Warning) :
  LoadLog lib lines = Done (log, ws) →
  Forall (fun w => 1 ≤ warningLine w ≤ Z.of_nat (length (recordLines lines))) ws
  ∧ StronglySorted (fun w w' => warningLine w ≤ warningLine w') ws.
Proof.
  intros H. apply LoadLog_Done in H as [_ Hp].
  apply parseLines_warning_lines in Hp as [Hr Hs]. split; [| done].
  eapply Forall_impl; [apply Hr |]. intros w Hw. simpl in Hw. lia.
Qed.

Lemma LoadLog_warning_lines_witness :
  ∃ log,
    LoadLog RefLib.refLib
      ["Date : Habit : Status"; "2025-03-01 : Walk : y"; "2025-03-02 : Walk : q";
       "2025-03-03 : Walk : y : late"]
    = Done (log, [WarnInvalidResult "q" 2; WarnFieldCount 3 4 3])
    ∧ Forall (fun w => 1 ≤ warningLine w ≤ 3)
        [WarnInvalidResult "q" 2; WarnFieldCount 3 4 3]
    ∧ StronglySorted (fun w w' => warningLine w ≤ warningLine w')
        [WarnInvalidResult "q" 2; WarnFieldCount 3 4 3].
Proof.
  eexists. split; [vm_compute; reflexivity |].
  eapply (LoadLog_warning_lines RefLib.refLib
           ["Date : Habit : Status"; "2025-03-01 : Walk : y"; "2025-03-02 : Walk : q";
            "2025-03-03 : Walk : y : late"]
           _ [WarnInvalidResult "q" 2; WarnFieldCount 3 4 3]).
  vm_compute. reflexivity.
Defined.

(** X12. Reading a file is reading its first part and then the rest of
    it from the entries and the line count the first part leaves: the
    warnings are those of the first part followed by those of the
    rest, and a panic in either part is a panic of the whole. *)
Theorem parseLines_app (lib : GoLib) (header : Header) (lines1 lines2 : list string)
    (c : Z) (e : Entries) :
  parseLines lib (lines1 ++ lines2) c header e
  = (r1 ← parseLines lib lines1 c header e;
     r2 ← parseLines lib lines2 (c + Z.of_nat (length lines1)) header r1.1;
     Done (r2.1, r1.2 ++ r2.2)).
Proof.
  revert c e. induction lines1 as [| line rest IH]; intros c e.
  - simpl. rewrite Z.add_0_r.
    by destruct (parseLines lib lines2 c header e) as [[e2 w2] |].
  - simpl app. simpl parseLines.
    destruct (parseLogLine lib line (c + 1) header e) as [[e1 w1] |]; [| done].
    rewrite !bind_Done. simpl fst. simpl snd. rewrite IH.
    replace (c + 1 + Z.of_nat (length rest)) with (c + Z.of_nat (length (line :: rest)))
      by (simpl length; lia).
    destruct (parseLines lib rest (c + 1) header e1) as [[e2 w2] |]; [| done].
    rewrite !bind_Done. simpl fst. simpl snd.
    destruct (parseLines lib lines2 _ header e2) as [[e3 w3] |]; [| done].
    rewrite !bind_Done. simpl. by rewrite app_assoc.
Qed.

(** ** [ParseHeader] *)

Lemma isHeaderName_columns (word : string) : isHeaderName word = true ↔ word ∈ columns.
Proof. unfold isHeaderName, columns. apply bool_decide_eq_true. Qed.

Lemma parseHeaderFrom_None (words : list string) (i : Z) (out : Header) :
  parseHeaderFrom words i out = None ↔ Exists (fun w => isHeaderName w = false) words.
Proof.
  revert i out. induction words as [| w rest IH]; intros i out; simpl.
  - split; [done | intros H; inversion H].
  - destruct (isHeaderName w) eqn:Hw.
    + rewrite IH. split; [by right | intros H; inversion H; [congruence | done]].
    + split; [by left | done].
Qed.

(** X13. [ParseHeader] returns its error exactly when some field of
    the line is not one of the five column names: a line is a header
    whatever the number, the order and the repetitions of its columns,
    and the empty line is no header. *)
Theorem ParseHeader_error (line : string) :
  ParseHeader line = None ↔ ∃ word, word ∈ Split line " : " ∧ word ∉ columns.
Proof.
  unfold ParseHeader. rewrite parseHeaderFrom_None, Exists_exists.
  split; intros (word & Hin & Hw); exists word; split; try done.
  - rewrite <- isHeaderName_columns. by rewrite Hw.
  - rewrite <- isHeaderName_columns in Hw. by destruct (isHeaderName word).
Qed.

Lemma lastAt_cons (w : string) (rest : list string) (name : string) (q : Z) :
  lastAt (w :: rest) name q
  ↔ lastAt rest name (q - 1) ∨ (q = 0 ∧ w = name ∧ name ∉ rest).
Proof.
  unfold lastAt. split.
  - intros (H0 & Hl & Hlast). destruct (decide (q = 0)) as [-> | Hq].
    + right. simpl in Hl. injection Hl as ->. split; [done |]. split; [done |].
      intros Hin. apply list_elem_of_lookup in Hin as [j Hj].
      apply (Hlast (S j)); [simpl; lia | done].
    + left. split; [lia |].
      replace (Z.to_nat q) with (S (Z.to_nat (q - 1))) in * by lia. simpl in Hl.
      split; [done |]. intros j Hj. apply (Hlast (S j)). lia.
  - intros [(H0 & Hl & Hlast) | (-> & -> & Hnin)].
    + split; [lia |]. replace (Z.to_nat q) with (S (Z.to_nat (q - 1))) by lia.
      split; [done |]. intros [| j] Hj; [lia |]. simpl. apply Hlast. lia.
    + split; [done |]. split; [done |]. intros [| j] Hj; [simpl in Hj; lia |].
      simpl. intros Hj'. apply Hnin. by eapply list_elem_of_lookup_2.
Qed.

Lemma lastAt_in_range (words : list string) (name : string) (p : Z) :
  lastAt words name p → 0 ≤ p < Z.of_nat (length words).
Proof.
  intros (H0 & Hl & _). apply lookup_lt_Some in Hl. lia.
Qed.

Lemma parseHeaderFrom_lookup (words : list string) (i : Z) (out header : Header)
    (name : string) (p : Z) :
  parseHeaderFrom words i out = Some header →
  (header !! name = Some p
   ↔ lastAt words name (p - i) ∨ ((name ∉ words) ∧ out !! name = Some p)).
Proof.
  revert i out. induction words as [| w rest IH]; intros i out; simpl.
  - intros [= <-]. split.
    + intros H. right. split; [apply not_elem_of_nil | done].
    + intros [(_ & Hl & _) | [_ H]]; [done | done].
  - destruct (isHeaderName w); [| done]. intros H.
    rewrite (IH _ _ H), lastAt_cons.
    replace (p - (i + 1)) with (p - i - 1) by lia.
    rewrite not_elem_of_cons.
    destruct (decide (w = name)) as [-> | Hne].
    + rewrite lookup_insert_eq. split.
      * intros [Hl | [Hn [= <-]]]; [by left; left |]. left. right. split; [lia |]. done.
      * intros [[Hl | (Hp & _ & Hn)] | [[Hn _] _]]; [by left | | done].
        right. split; [done |]. f_equal. lia.
    + rewrite lookup_insert_ne by done. split.
      * intros [Hl | [Hn Ho]]; [by left; left |]. right. by repeat split.
      * intros [[Hl | (_ & Hw & _)] | [[_ Hn] Ho]]; [by left | done | by right].
Qed.

Lemma ParseHeader_lookup (line : string) (header : Header) (name : string) (p : Z) :
  ParseHeader line = Some header →
  (header !! name = Some p ↔ lastAt (Split line " : ") name p).
Proof.
  intros H. rewrite (parseHeaderFrom_lookup _ _ _ _ name p H), Z.sub_0_r.
  split; [| by left]. by intros [Hl | [_ Ho]].
Qed.

(** X14. The header [ParseHeader] returns maps each name of the line to
    the position of its last occurrence in the line, and holds nothing
    else. *)
Theorem ParseHeader_positions (line : string) (header : Header) :
  ParseHeader line = Some header →
  ∀ name p, header !! name = Some p ↔ lastAt (Split line " : ") name p.
Proof. intros H name p. by apply ParseHeader_lookup. Qed.

Lemma ParseHeader_positions_witness :
  ParseHeader "Date : Habit : Date"
  = Some (<[HeaderDate := 2]> (<[HeaderHabit := 1]> ∅))
  ∧ ((<[HeaderDate := 2]> (<[HeaderHabit := 1]> ∅) : Header) !! HeaderDate = Some 2
     ↔ lastAt (Split "Date : Habit : Date" " : ") HeaderDate 2).
Proof.
  split; [vm_compute; reflexivity |].
  apply (ParseHeader_positions "Date : Habit : Date"). vm_compute. reflexivity.
Defined.

(** ** The slice of [WriteHabitLog] and the positions of the header *)

Lemma assign_out_of_range {A} (s : list A) (i : Z) (x : A) :
  ¬ (0 ≤ i < Z.of_nat (length s)) → assign s i x = Panic.
Proof.
  intros H. unfold assign.
  destruct ((0 <=? i) && (i <? Z.of_nat (length s))) eqn:Hb; [| done].
  apply andb_true_iff in Hb as [H0 Hn]. apply Z.leb_le in H0. apply Z.ltb_lt in Hn. lia.
Qed.

Lemma logFields_Panic_iff (lib : GoLib) (d : Civil.Date)
    (habit result comment amount : string) (header : Header) :
  logFields lib d habit result comment amount header = Panic
  ↔ ∃ k i, header !! k = Some i ∧ ¬ (0 ≤ i < Z.of_nat (size header)).
Proof.
  unfold logFields. set (N := size header).
  cut ((λ (r : Run (list string)) (m : Header),
          ((∃ k i, m !! k = Some i ∧ ¬ (0 ≤ i < Z.of_nat N)) → r = Panic)
          ∧ ((∀ k i, m !! k = Some i → 0 ≤ i < Z.of_nat N)
             → ∃ fields, r = Done fields ∧ length fields = N))
         (map_fold (fun column i acc =>
                      fields ← acc;
                      assign fields i (fieldOf lib d habit result comment amount column))
                   (Done (replicate N EmptyString)) header) header).
  { simpl. intros [H1 H2]. split; [| done]. intros Hp.
    destruct (decide (map_Forall (fun _ i => 0 ≤ i < Z.of_nat N) header)) as [Hall | Hnot].
    - destruct (H2 Hall) as (fields & Hd & _). by rewrite Hd in Hp.
    - by apply map_not_Forall in Hnot; [| apply _]. }
  apply (map_fold_weak_ind (fun (r : Run (list string)) (m : Header) =>
    ((∃ k i, m !! k = Some i ∧ ¬ (0 ≤ i < Z.of_nat N)) → r = Panic)
    ∧ ((∀ k i, m !! k = Some i → 0 ≤ i < Z.of_nat N)
       → ∃ fields, r = Done fields ∧ length fields = N))).
  - split; [by intros (k & i & Hk & _) |].
    intros _. exists (replicate N EmptyString). by rewrite length_replicate.
  - intros k i m r Hk [IH1 IH2]. split.
    + intros (k' & i' & Hk' & Hbad).
      destruct (decide (map_Forall (fun _ i => 0 ≤ i < Z.of_nat N) m)) as [Hall | Hnot].
      * destruct (IH2 Hall) as (fields & -> & Hlen). rewrite bind_Done.
        destruct (decide (k' = k)) as [-> | Hne].
        -- rewrite lookup_insert_eq in Hk'. injection Hk' as <-.
           apply assign_out_of_range. by rewrite Hlen.
        -- rewrite lookup_insert_ne in Hk' by done. exfalso. apply Hbad, (Hall k' i' Hk').
      * apply map_not_Forall in Hnot; [| apply _]. by rewrite (IH1 Hnot).
    + intros Hall. destruct IH2 as (fields & -> & Hlen).
      { intros k' i' Hk'. apply (Hall k' i').
        rewrite lookup_insert_ne; [done | intros ->; congruence]. }
      rewrite bind_Done. pose proof (Hall k i (lookup_insert_eq m k i)) as Hi.
      rewrite assign_in_range by lia. eexists. split; [done |]. by rewrite length_insert.
Qed.

(** X15. [WriteHabitLog] runs into an index out of range exactly
    when some position of the header is negative or not below the
    number of columns of the header; otherwise it writes a line. *)
Theorem logEntry_panics_iff (lib : GoLib) (d : Civil.Date)
    (habit result comment amount : string) (header : Header) :
  logEntry lib d habit result comment amount header = Panic
  ↔ ∃ k i, header !! k = Some i ∧ ¬ (0 ≤ i < Z.of_nat (size header)).
Proof.
  rewrite <- (logFields_Panic_iff lib d habit result comment amount). unfold logEntry.
  by destruct (logFields lib d habit result comment amount header).
Qed.

Lemma size_list_to_set_le (l : list string) :
  (size (list_to_set l : gset string) ≤ length l)%nat
  ∧ (¬ NoDup l → (size (list_to_set l : gset string) < length l)%nat).
Proof.
  induction l as [| x l [IH1 IH2]]; [split; [done | intros H; destruct H; constructor] |].
  rewrite list_to_set_cons. simpl length.
  destruct (decide (x ∈ l)) as [Hin | Hnin].
  - rewrite (subseteq_union_1_L {[x]} (list_to_set l)).
    + split; [lia |]. intros _. lia.
    + apply singleton_subseteq_l. by apply elem_of_list_to_set.
  - rewrite size_union, size_singleton.
    + split; [lia |]. intros Hnd. assert (¬ NoDup l) as Hl; [| specialize (IH2 Hl); lia].
      intros Hl. apply Hnd. by constructor.
    + apply disjoint_singleton_l. by rewrite elem_of_list_to_set.
Qed.

Lemma parseHeaderFrom_dom (words : list string) (i : Z) (out header : Header) :
  parseHeaderFrom words i out = Some header →
  dom header = list_to_set words ∪ dom out.
Proof.
  revert i out. induction words as [| w rest IH]; intros i out; simpl.
  - intros [= <-]. by rewrite (left_id_L ∅ (∪)).
  - destruct (isHeaderName w); [| done]. intros H. rewrite (IH _ _ H), dom_insert_L.
    rewrite (assoc_L (∪)). f_equal. apply (comm_L (∪)).
Qed.

Lemma ParseHeader_size (line : string) (header : Header) :
  ParseHeader line = Some header →
  size header = size (list_to_set (Split line " : ") : gset string).
Proof.
  intros H. apply parseHeaderFrom_dom in H.
  rewrite dom_empty_L, (right_id_L ∅ (∪)) in H. by rewrite <- size_dom, H.
Qed.

(** X16. A header line that names a column twice is accepted by
    [ParseHeader], and every write under the header it returns runs
    into an index out of range; under the header of a line without
    repetition no write does. *)
Theorem repeated_column_panics (lib : GoLib) (d : Civil.Date)
    (habit result comment amount : string) (line : string) (header : Header) :
  ParseHeader line = Some header →
  (logEntry lib d habit result comment amount header = Panic
   ↔ ¬ NoDup (Split line " : ")).
Proof.
  intros H. pose proof (ParseHeader_size line header H) as Hsize.
  assert (Hpanic : logEntry lib d habit result comment amount header = Panic
                   ↔ ∃ k i, header !! k = Some i ∧ ¬ (0 ≤ i < Z.of_nat (size header))).
  { rewrite <- (logFields_Panic_iff lib d habit result comment amount). unfold logEntry.
    by destruct (logFields lib d habit result comment amount header). }
  rewrite Hpanic. set (words := Split line " : ") in *. split.
  - intros (k & i & Hk & Hbad) Hnd. apply Hbad.
    apply (ParseHeader_lookup line header k i H) in Hk. apply lastAt_in_range in Hk.
    fold words in Hk. rewrite Hsize, (size_list_to_set words Hnd). lia.
  - intros Hnd. destruct (size_list_to_set_le words) as [_ Hlt]. specialize (Hlt Hnd).
    destruct (lookup_lt_is_Some_2 words (length words - 1)) as [w Hw]; [lia |].
    exists w, (Z.of_nat (length words - 1)). split; [| lia].
    apply (ParseHeader_lookup line header w _ H). fold words.
    split; [lia |]. rewrite Nat2Z.id. split; [done |].
    intros q Hq Hl. apply lookup_lt_Some in Hl. lia.
Qed.

Lemma repeated_column_panics_witness :
  ∃ header,
    ParseHeader "Date : Habit : Status : Habit" = Some header
    ∧ logEntry RefLib.refLib (Civil.DateOf 2025 3 1) "Walk" "y" "" "" header = Panic.
Proof.
  eexists. split; [vm_compute; reflexivity |].
  eapply (repeated_column_panics RefLib.refLib (Civil.DateOf 2025 3 1) "Walk" "y" "" ""
            "Date : Habit : Status : Habit").
  - vm_compute. reflexivity.
  - apply (bool_decide_unpack _). vm_compute. reflexivity.
Defined.

Lemma NoDup_fmap_of_inj_on {A B} (f : A → B) (l : list A) :
  NoDup l → (∀ x y, x ∈ l → y ∈ l → f x = f y → x = y) → NoDup (f <$> l).
Proof.
  induction 1 as [| a l Ha Hnd IH]; intros Hinj; [constructor |].
  rewrite fmap_cons. constructor.
  - intros Hin. apply list_elem_of_fmap in Hin as (y & Hy & Hyl).
    apply Ha. rewrite (Hinj a y); [done | by left | by right | done].
  - apply IH. intros x y Hx Hy. apply Hinj; by right.
Qed.

Lemma columns_split_back :
  Forall (fun f => Contains f " : " = false ∧ HasSuffix f " :" = false) columns.
Proof. repeat constructor. Qed.

(** X17. A line of the five column names in any order, joined by the
    separator, is a header line, and its header is one of the headers
    under which a written record is read back: the five columns at
    distinct positions 0..4, each at the place it has in the line. *)
Theorem ParseHeader_of_columns (words : list string) :
  words ≡ₚ columns →
  ∃ header,
    ParseHeader (Join words " : ") = Some header
    ∧ fiveColumns header = true
    ∧ ∀ (p : nat) name, words !! p = Some name → header !! name = Some (Z.of_nat p).
Proof.
  intros Hperm.
  assert (Hnd : NoDup words) by (rewrite Hperm; apply columns_NoDup).
  assert (Hlen : length words = 5%nat) by (by rewrite Hperm).
  assert (Hall : Forall (fun f => Contains f " : " = false ∧ HasSuffix f " :" = false) words).
  { rewrite Hperm. apply columns_split_back. }
  assert (Hsplit : Split (Join words " : ") " : " = words).
  { destruct words as [| w ws] using rev_ind; [done |].
    apply Forall_app in Hall as [Hi Hl]. apply Forall_inv in Hl as [Hl _].
    by apply Split_Join. }
  destruct (ParseHeader (Join words " : ")) as [header |] eqn:Hh.
  2: { apply parseHeaderFrom_None, Exists_exists in Hh as (word & Hin & Hnot).
       rewrite Hsplit, Hperm in Hin. apply isHeaderName_columns in Hin. congruence. }
  assert (Hpos : ∀ (p : nat) name, words !! p = Some name
                 → header !! name = Some (Z.of_nat p)).
  { intros p name Hp. apply (ParseHeader_lookup _ _ _ _ Hh). rewrite Hsplit.
    split; [lia |]. rewrite Nat2Z.id. split; [done |].
    intros q Hq Hl. apply (NoDup_lookup _ _ _ _ Hnd Hp) in Hl. lia. }
  exists header. split; [done |]. split; [| done].
  unfold fiveColumns. rewrite !andb_true_iff, !bool_decide_eq_true.
  split; [split |].
  - pose proof (parseHeaderFrom_dom _ _ _ _ Hh) as Hd. rewrite Hsplit in Hd.
    rewrite Hd, dom_empty_L, (right_id_L ∅ (∪)). by rewrite Hperm.
  - intros col pos Hk. apply (ParseHeader_lookup _ _ _ _ Hh) in Hk.
    apply lastAt_in_range in Hk. rewrite Hsplit, Hlen in Hk. lia.
  - apply NoDup_fmap_of_inj_on; [apply columns_NoDup |].
    intros x y Hx Hy. rewrite <- Hperm in Hx, Hy.
    apply list_elem_of_lookup in Hx as [px Hpx]. apply list_elem_of_lookup in Hy as [py Hpy].
    unfold at_key. rewrite (Hpos px x Hpx), (Hpos py y Hpy). simpl. intros E.
    assert (px = py) as -> by lia. congruence.
Qed.

Lemma ParseHeader_of_columns_witness :
  ∃ header,
    ParseHeader (Join (reverse columns) " : ") = Some header
    ∧ fiveColumns header = true
    ∧ ∀ (p : nat) name, reverse columns !! p = Some name
        → header !! name = Some (Z.of_nat p).
Proof.
  apply (ParseHeader_of_columns (reverse columns)). apply reverse_Permutation.
Defined.

(** ** More on [FirstRecords] *)

(** X18. Scanning a range of days is scanning its later part and then
    its earlier part: for [from <= mid + 1] and [mid <= to], one call
    on [[from, to]] leaves the habits as a call on [[mid + 1, to]]
    followed by a call on [[from, mid]] does. *)
Theorem FirstRecords_split (e : Entries) (from mid to : Civil.Date) (habits : list Habit) :
  from ≤ mid + 1 → mid ≤ to →
  FirstRecords e from to habits
  = FirstRecords e from mid (FirstRecords e (mid + 1) to habits).
Proof.
  intros H1 H2. unfold FirstRecords, Civil.daysDown.
  rewrite (daysUp_split from mid to H1 H2), reverse_app. apply foldl_app.
Qed.

Lemma FirstRecords_split_witness :
  FirstRecords (<[(5, "Walk") := {| Result := "y"; Amount := 0; Comment := "" |}]>
                  (<[(2, "Run") := {| Result := "n"; Amount := 0; Comment := "" |}]> ∅))
    1 7 [Tests.habitOf "Walk" 1 1 0; Tests.habitOf "Run" 1 1 0]
  = FirstRecords (<[(5, "Walk") := {| Result := "y"; Amount := 0; Comment := "" |}]>
                    (<[(2, "Run") := {| Result := "n"; Amount := 0; Comment := "" |}]> ∅))
      1 3
      (FirstRecords (<[(5, "Walk") := {| Result := "y"; Amount := 0; Comment := "" |}]>
                       (<[(2, "Run") := {| Result := "n"; Amount := 0; Comment := "" |}]> ∅))
         (3 + 1) 7 [Tests.habitOf "Walk" 1 1 0; Tests.habitOf "Run" 1 1 0]).
Proof.
  apply (FirstRecords_split _ 1 3 7); lia.
Defined.

Lemma firstRecord_scan_Name (e : Entries) (h : Habit) (days : list Civil.Date) :
  Name (foldr (firstRecordStep e) h days) = Name h.
Proof.
  induction days as [| d days IH]; [done |]. simpl. by rewrite firstRecordStep_Name.
Qed.

Lemma Habit_eq (h h' : Habit) :
  sameButFirstRecord h h' → FirstRecord h' = FirstRecord h → h' = h.
Proof.
  destruct h, h'. unfold sameButFirstRecord. simpl. intros (-> & -> & -> & -> & ->) ->.
  done.
Qed.

(** X19. [FirstRecords] is idempotent: a second call with the same
    entries and the same range changes nothing. *)
Theorem FirstRecords_idempotent (e : Entries) (from to : Civil.Date)
    (habits : list Habit) :
  FirstRecords e from to (FirstRecords e from to habits)
  = FirstRecords e from to habits.
Proof.
  rewrite !FirstRecords_each, <- list_fmap_compose.
  apply list_fmap_ext. intros i h _. simpl.
  set (h1 := foldr (firstRecordStep e) h (Civil.daysUp from to)).
  destruct (firstRecord_scan e to h from) as (Hsame1 & Hnone1 & Hsome1). fold h1 in Hsame1, Hnone1, Hsome1.
  destruct (firstRecord_scan e to h1 from) as (Hsame2 & Hnone2 & Hsome2).
  set (h2 := foldr (firstRecordStep e) h1 (Civil.daysUp from to)) in *.
  assert (Hname : Name h1 = Name h) by apply Hsame1.
  rewrite Hname in Hnone2, Hsome2.
  destruct (decide (Forall (fun dt => e !! (dt, Name h) = None) (Civil.daysUp from to)))
    as [Hall | Hex].
  - apply Hnone2. intros dt Hdt. rewrite Forall_forall in Hall. apply Hall.
    by apply elem_of_daysUp.
  - apply not_Forall_Exists in Hex; [| intros dt; apply _].
    apply Exists_exists in Hex as (dt & Hin & Hdt). apply elem_of_daysUp in Hin.
    assert (Hs : is_Some (e !! (dt, Name h))).
    { simpl in Hdt. by destruct (e !! (dt, Name h)). }
    destruct (Hsome1 dt Hin Hs) as [Hr1 He1]. destruct (Hsome2 dt Hin Hs) as [Hr2 He2].
    assert (Hin1 : from ≤ FirstRecord h1 ≤ to) by lia.
    assert (Hin2 : from ≤ FirstRecord h2 ≤ to) by lia.
    destruct (Hsome1 _ Hin2 He2) as [Ha _]. destruct (Hsome2 _ Hin1 He1) as [Hb _].
    apply Habit_eq; [done | lia].
Qed.

(** X20. [FirstRecords] looks only at which days of the range hold an
    entry of a habit, not at the outcomes: two logs that record the
    habits of the list on the same days of [[from, to]] give the same
    habits. *)
Theorem FirstRecords_presence (e e' : Entries) (from to : Civil.Date)
    (habits : list Habit) :
  (∀ dt h, from ≤ dt ≤ to → h ∈ habits →
     (is_Some (e !! (dt, Name h)) ↔ is_Some (e' !! (dt, Name h)))) →
  FirstRecords e from to habits = FirstRecords e' from to habits.
Proof.
  intros Hsame. rewrite !FirstRecords_each. apply list_fmap_ext. intros i h Hi.
  apply list_elem_of_lookup_2 in Hi.
  assert (Hdays : ∀ dt, dt ∈ Civil.daysUp from to → from ≤ dt ≤ to)
    by (intros dt; apply elem_of_daysUp).
  induction (Civil.daysUp from to) as [| d days IH]; [done |]. simpl.
  rewrite IH by (intros dt Hdt; apply Hdays; by right).
  pose proof (firstRecord_scan_Name e' h days) as Hn.
  set (x := foldr (firstRecordStep e') h days) in *.
  unfold firstRecordStep. rewrite Hn.
  specialize (Hsame d h (Hdays d ltac:(by left)) Hi).
  destruct (e !! (d, Name h)) as [o |], (e' !! (d, Name h)) as [o' |]; try done.
  - destruct Hsame as [Hs _]. by destruct Hs.
  - destruct Hsame as [_ Hs]. by destruct Hs.
Qed.

Lemma FirstRecords_presence_witness :
  FirstRecords (<[(5, "Walk") := {| Result := "y"; Amount := 0; Comment := "" |}]> ∅)
    1 7 [Tests.habitOf "Walk" 1 1 0]
  = FirstRecords (<[(5, "Walk") := {| Result := "n"; Amount := 2; Comment := "rain" |}]>
                    (<[(6, "Run") := {| Result := "y"; Amount := 0; Comment := "" |}]> ∅))
      1 7 [Tests.habitOf "Walk" 1 1 0].
Proof.
  apply FirstRecords_presence. intros dt h Hdt Hh.
  apply list_elem_of_singleton in Hh as ->. simpl.
  destruct (decide (dt = 5)) as [-> | Hne].
  - rewrite !lookup_insert_eq. by split.
  - rewrite !lookup_insert_ne by congruence. by rewrite !lookup_empty.
Defined.

(** ** The repository of the tests *)

Lemma foldl_longer (hs : list Habit) (a : Z) :
  a ≤ foldl Mock.longer a hs
  ∧ (∀ h, h ∈ hs → Z.of_nat (String.length (Name h)) ≤ foldl Mock.longer a hs)
  ∧ (foldl Mock.longer a hs = a
     ∨ ∃ h, h ∈ hs ∧ foldl Mock.longer a hs = Z.of_nat (String.length (Name h))).
Proof.
  revert a. induction hs as [| h hs IH]; intros a; simpl.
  { split; [lia |]. split; [| by left]. intros h Hh. by apply elem_of_nil in Hh. }
  destruct (IH (Mock.longer a h)) as (Hle & Hall & Hat).
  assert (Hl : a ≤ Mock.longer a h ∧ Z.of_nat (String.length (Name h)) ≤ Mock.longer a h
               ∧ (Mock.longer a h = a
                  ∨ Mock.longer a h = Z.of_nat (String.length (Name h)))).
  { unfold Mock.longer. destruct (a <? Z.of_nat (String.length (Name h))) eqn:E.
    - apply Z.ltb_lt in E. split; [lia |]. split; [lia | by right].
    - apply Z.ltb_ge in E. split; [lia |]. split; [lia | by left]. }
  destruct Hl as (Hl1 & Hl2 & Hl3).
  split; [lia |]. split.
  - intros h' Hh'. apply elem_of_cons in Hh' as [-> | Hh']; [lia | by apply Hall].
  - destruct Hat as [Hat | (h' & Hh' & Hat)].
    + rewrite Hat. destruct Hl3 as [-> | ->]; [by left |].
      right. exists h. split; [by left | done].
    + right. exists h'. split; [by right | done].
Qed.

(** X22. The width [LoadHabits] of the mock repository returns is ten
    more than the length of the longest habit name: every name is at
    least ten shorter, some name is exactly ten shorter unless there is
    no habit or only empty names, when the width is ten; the habits are
    returned as they are. *)
Theorem LoadHabits_width (m : Mock.MockRepository) :
  (Mock.LoadHabits m).1 = Mock.habits m
  ∧ (∀ h, h ∈ Mock.habits m
       → Z.of_nat (String.length (Name h)) + 10 ≤ (Mock.LoadHabits m).2)
  ∧ ((Mock.LoadHabits m).2 = 10
     ∨ ∃ h, h ∈ Mock.habits m
         ∧ (Mock.LoadHabits m).2 = Z.of_nat (String.length (Name h)) + 10).
Proof.
  unfold Mock.LoadHabits. simpl.
  destruct (foldl_longer (Mock.habits m) 0) as (_ & Hall & Hat).
  split; [done |]. split.
  - intros h Hh. specialize (Hall h Hh). lia.
  - destruct Hat as [-> | (h & Hh & ->)]; [by left |]. right. by exists h.
Qed.
